(** * Coffee Corner LINE RAG bot: the pipeline and the handlers of
      [app.py], the configuration check of [config.py] and the script
      [setup.py], embedded in Rocq.

    Python values are modelled as follows.
    - [str] is a list of Unicode code points ([list N]); a Python string
      literal is written [utf8 "..."], the decoding of the UTF-8 text of the
      literal.
    - a [dict] used as a dictionary is a [gmap] keyed by [str]; a dict built
      with a fixed set of keys and read field by field is a record.
    - a call that may raise returns an [outcome]; code that also talks to the
      outside world (printing, the embedding model, the vector index, the
      HTTP client) runs in the state-and-exception monad [M].
    - [print] encodes its line for standard output, a UTF-8 text stream: a
      line that holds a surrogate code point raises [UnicodeEncodeError],
      as any [str] that cannot be encoded does in Python. *)

From Stdlib Require Import ZArith NArith QArith PrimFloat String Ascii List Lia.
From stdpp Require Import base option list gmap strings pretty.
Import ListNotations.

#[local] Set Warnings "-register-all".
#[local] Open Scope N_scope.

(* ===================================================================== *)
(** ** Python strings *)
(* ===================================================================== *)

Abbreviation str := (list N).

(** Decoding of UTF-8 bytes into code points; a truncated sequence is kept
    byte by byte (string literals of the source are well-formed UTF-8). *)
Fixpoint utf8_decode (bs : list N) : str :=
  match bs with
  | [] => []
  | b0 :: r0 =>
    if b0 <? 0x80 then b0 :: utf8_decode r0
    else if b0 <? 0xE0 then
      match r0 with
      | b1 :: r1 =>
        N.lor (N.shiftl (N.land b0 0x1F) 6) (N.land b1 0x3F) :: utf8_decode r1
      | _ => b0 :: utf8_decode r0
      end
    else if b0 <? 0xF0 then
      match r0 with
      | b1 :: b2 :: r2 =>
        N.lor (N.shiftl (N.land b0 0x0F) 12)
          (N.lor (N.shiftl (N.land b1 0x3F) 6) (N.land b2 0x3F))
          :: utf8_decode r2
      | _ => b0 :: utf8_decode r0
      end
    else
      match r0 with
      | b1 :: b2 :: b3 :: r3 =>
        N.lor (N.shiftl (N.land b0 0x07) 18)
          (N.lor (N.shiftl (N.land b1 0x3F) 12)
             (N.lor (N.shiftl (N.land b2 0x3F) 6) (N.land b3 0x3F)))
          :: utf8_decode r3
      | _ => b0 :: utf8_decode r0
      end
  end.

Definition utf8 (s : string) : str :=
  utf8_decode (map N_of_ascii (list_ascii_of_string s)).

(** The double quote, for literals that contain one. *)
Definition dquote : str := [34].

(** [str.isspace] on one code point, the test [str.strip()] uses. *)
Definition Py_UNICODE_ISSPACE (c : N) : bool :=
  ((9 <=? c) && (c <=? 13)) || ((28 <=? c) && (c <=? 32))
  || (c =? 0x85) || (c =? 0xA0) || (c =? 0x1680)
  || ((0x2000 <=? c) && (c <=? 0x200A))
  || (c =? 0x2028) || (c =? 0x2029) || (c =? 0x202F)
  || (c =? 0x205F) || (c =? 0x3000).

Fixpoint lstrip (s : str) : str :=
  match s with
  | c :: r => if Py_UNICODE_ISSPACE c then lstrip r else s
  | [] => []
  end.

Definition rstrip (s : str) : str := rev (lstrip (rev s)).

(** [s.strip()] *)
Definition strip (s : str) : str := rstrip (lstrip s).

(** A blank string: empty, or white space only. *)
Definition blank (s : str) : bool := forallb Py_UNICODE_ISSPACE s.

(** [sep.join(l)] *)
Fixpoint join (sep : str) (l : list str) : str :=
  match l with
  | [] => []
  | [x] => x
  | x :: r => x ++ sep ++ join sep r
  end.

(** [needle] occurs in [s]. *)
Definition contains (s needle : str) : Prop :=
  exists pre post, s = pre ++ needle ++ post.

(** [str(n)] for an integer. *)
Definition str_of_Z (n : Z) : str := utf8 (pretty n).

(** Truth value of a string: [bool(s)]. *)
Definition str_truthy (s : str) : bool :=
  match s with [] => false | _ :: _ => true end.

(** A code point of the surrogate range, U+D800 to U+DFFF: what the UTF-8
    codec refuses to encode. *)
Definition is_surrogate (c : N) : bool := (0xD800 <=? c) && (c <=? 0xDFFF).

(** [s.encode('utf-8')] succeeds: [s] holds no surrogate. *)
Definition encodable (s : str) : bool :=
  forallb (fun c => negb (is_surrogate c)) s.

(* ===================================================================== *)
(** ** Exceptions and results of calls *)
(* ===================================================================== *)

(** Instances of Python's [Exception] class: what a [raise] in the code, a
    failing built-in operation or a failing library call produces, and what
    an [except Exception] clause handles. *)
Inductive ExceptionClass :=
| KeyError | IndexError | TypeError | AttributeError | ValueError
| UnicodeEncodeError
| LibraryError (name : str).

Record Exception := mkException { exc_class : ExceptionClass; exc_str : str }.

Inductive outcome (A : Type) : Type :=
| Return (a : A)
| Raise (e : Exception).
Arguments Return {A} a.
Arguments Raise {A} e.

#[global] Instance outcome_ret : MRet outcome := fun A a => Return a.
#[global] Instance outcome_bind : MBind outcome := fun A B f m =>
  match m with
  | Return a => f a
  | Raise e => Raise e
  end.

(** *** Writing to standard output *)

(** Where the run of surrogates that starts before position [i] ends: the
    position after its last code point. *)
Fixpoint surrogate_run_end (s : str) (i : nat) : nat :=
  match s with
  | c :: r => if is_surrogate c then surrogate_run_end r (S i) else i
  | [] => i
  end.

(** The first run of surrogates of [s], as the UTF-8 encoder reports it: the
    position of its first code point, that code point, and the position
    after its last one. *)
Fixpoint first_surrogate_run (s : str) (i : nat) : option (nat * N * nat) :=
  match s with
  | [] => None
  | c :: r =>
    if is_surrogate c then Some (i, c, surrogate_run_end r (S i))
    else first_surrogate_run r (S i)
  end.

(** One lower-case hexadecimal digit. *)
Definition hex_digit (d : N) : N := if d <? 10 then 48 + d else 87 + d.

(** A code point of the basic plane as an exception message shows it: a
    backslash, [u] and four hexadecimal digits. *)
Definition escape_u (c : N) : str :=
  [92; 117; hex_digit (c / 4096 mod 16); hex_digit (c / 256 mod 16);
   hex_digit (c / 16 mod 16); hex_digit (c mod 16)].

(** [str(e)] for the [UnicodeEncodeError] of the UTF-8 codec on the run of
    surrogates from [start] to [stop] (excluded) that begins with [c]. *)
Definition UnicodeEncodeError_str (start : nat) (c : N) (stop : nat) : str :=
  if (stop =? S start)%nat then
    utf8 "'utf-8' codec can't encode character '" ++ escape_u c
      ++ utf8 "' in position " ++ str_of_Z (Z.of_nat start)
      ++ utf8 ": surrogates not allowed"
  else
    utf8 "'utf-8' codec can't encode characters in position "
      ++ str_of_Z (Z.of_nat start) ++ utf8 "-" ++ str_of_Z (Z.of_nat (stop - 1))
      ++ utf8 ": surrogates not allowed".

(** What encoding [s] for standard output gives. Standard output is taken
    as Python opens it by default: a text stream in UTF-8 with the strict
    error handler, which accepts every write of encoded text. *)
Definition stdout_encode (s : str) : outcome unit :=
  match first_surrogate_run s 0 with
  | None => Return tt
  | Some (start, c, stop) =>
    Raise (mkException UnicodeEncodeError (UnicodeEncodeError_str start c stop))
  end.

(* ===================================================================== *)
(** ** config.py *)
(* ===================================================================== *)

(** The class attributes of [Config]; the four secrets are what
    [os.getenv] gave when the class body ran: [None] for a variable that is
    not set. *)
Record Config := mkConfig {
  PINECONE_API_KEY : option str;
  OPENROUTER_API_KEY : option str;
  LINE_CHANNEL_ACCESS_TOKEN : option str;
  LINE_CHANNEL_SECRET : option str;
}.

Definition PINECONE_INDEX_NAME : str := utf8 "cafe-line-bot".
Definition EMBEDDING_DIMENSION : Z := 384.
Definition OPENROUTER_MODEL : str := utf8 "deepseek/deepseek-chat-v3.1:free".

(** [os.getenv(name)] on the process environment (after [load_dotenv()]). *)
Definition getenv (environ : gmap str str) (name : str) : option str :=
  environ !! name.

Definition load_Config (environ : gmap str str) : Config :=
  {| PINECONE_API_KEY := getenv environ (utf8 "PINECONE_API_KEY");
     OPENROUTER_API_KEY := getenv environ (utf8 "OPENROUTER_API_KEY");
     LINE_CHANNEL_ACCESS_TOKEN := getenv environ (utf8 "LINE_CHANNEL_ACCESS_TOKEN");
     LINE_CHANNEL_SECRET := getenv environ (utf8 "LINE_CHANNEL_SECRET") |}.

(** Truth value of an attribute that is [None] or a string:
    [None] and the empty string are false. *)
Definition truthy (v : option str) : bool :=
  match v with
  | None => false
  | Some s => str_truthy s
  end.

(** [Config.validate_config()] *)
Definition validate_config (cls : Config) : outcome bool :=
  let missing : list str := [] in
  let missing :=
    if negb (truthy (PINECONE_API_KEY cls))
    then missing ++ [utf8 "PINECONE_API_KEY"] else missing in
  let missing :=
    if negb (truthy (OPENROUTER_API_KEY cls))
    then missing ++ [utf8 "OPENROUTER_API_KEY"] else missing in
  let missing :=
    if negb (truthy (LINE_CHANNEL_ACCESS_TOKEN cls))
    then missing ++ [utf8 "LINE_CHANNEL_ACCESS_TOKEN"] else missing in
  let missing :=
    if negb (truthy (LINE_CHANNEL_SECRET cls))
    then missing ++ [utf8 "LINE_CHANNEL_SECRET"] else missing in
  match missing with
  | _ :: _ =>
    Raise (mkException ValueError
             (utf8 "Missing environment variables: " ++ join (utf8 ", ") missing))
  | [] => Return true
  end.

(** The four required variables, with the attribute each one fills. *)
Definition required_secrets : list (str * (Config -> option str)) :=
  [ (utf8 "PINECONE_API_KEY", PINECONE_API_KEY);
    (utf8 "OPENROUTER_API_KEY", OPENROUTER_API_KEY);
    (utf8 "LINE_CHANNEL_ACCESS_TOKEN", LINE_CHANNEL_ACCESS_TOKEN);
    (utf8 "LINE_CHANNEL_SECRET", LINE_CHANNEL_SECRET) ].

(** The names [validate_config] collects in [missing], in order. *)
Definition missing_secrets (cls : Config) : list str :=
  map fst (List.filter (fun p => negb (truthy (p.2 cls))) required_secrets).

(* ===================================================================== *)
(** ** JSON values and the operations [_call_openrouter] applies to them *)
(* ===================================================================== *)

(** What [response.json()] returns. *)
Inductive json :=
| JNull
| JBool (b : bool)
| JInt (n : Z)
| JFloat (literal : str)
| JString (s : str)
| JArray (l : list json)
| JObject (o : gmap str json).

Definition type_name (v : json) : str :=
  match v with
  | JNull => utf8 "NoneType"
  | JBool _ => utf8 "bool"
  | JInt _ => utf8 "int"
  | JFloat _ => utf8 "float"
  | JString _ => utf8 "str"
  | JArray _ => utf8 "list"
  | JObject _ => utf8 "dict"
  end.

Definition not_subscriptable (v : json) : Exception :=
  mkException TypeError
    (utf8 "'" ++ type_name v ++ utf8 "' object is not subscriptable").

(** [v[key]] for a string key. *)
Definition getitem_str (v : json) (key : str) : outcome json :=
  match v with
  | JObject o =>
    match o !! key with
    | Some x => Return x
    | None => Raise (mkException KeyError (utf8 "'" ++ key ++ utf8 "'"))
    end
  | JArray _ =>
    Raise (mkException TypeError
             (utf8 "list indices must be integers or slices, not str"))
  | JString _ =>
    Raise (mkException TypeError
             (utf8 "string indices must be integers, not 'str'"))
  | _ => Raise (not_subscriptable v)
  end.

(** [v[0]]; the keys of a decoded JSON object are strings, so [0] is never
    one of them. *)
Definition getitem_0 (v : json) : outcome json :=
  match v with
  | JArray (x :: _) => Return x
  | JArray [] => Raise (mkException IndexError (utf8 "list index out of range"))
  | JString (c :: _) => Return (JString [c])
  | JString [] => Raise (mkException IndexError (utf8 "string index out of range"))
  | JObject _ => Raise (mkException KeyError (utf8 "0"))
  | _ => Raise (not_subscriptable v)
  end.

(** [v.strip()] *)
Definition call_strip (v : json) : outcome str :=
  match v with
  | JString s => Return (strip s)
  | _ =>
    Raise (mkException AttributeError
             (utf8 "'" ++ type_name v ++ utf8 "' object has no attribute 'strip'"))
  end.

(* ===================================================================== *)
(** ** app.py: values exchanged with the external services *)
(* ===================================================================== *)

(** A Python [float]. *)
Abbreviation float := PrimFloat.float.

(** One entry of [results['matches']]; [metadata] is [None] when the index
    holds none for the entry. *)
Record Match := mkMatch { metadata : option (gmap str str); score : float }.

(** The answer of [index.query]. *)
Record QueryResponse := mkQueryResponse { matches : list Match }.

(** The dictionaries [search_knowledge] builds, with keys
    ['title'], ['content'] and ['score']. *)
Record Document := mkDocument { title : str; content : str; doc_score : float }.

(** The arguments of the one [requests.post] call. *)
Record Request := mkRequest {
  url : str;
  json_model : str;
  json_messages : list (str * str);   (* role, content *)
  json_max_tokens : Z;
  json_temperature : Q;
  header_Authorization : str;
  header_Content_Type : str;
  timeout : Z;
}.

(** A [requests.Response]: the status code and what [.json()] does. *)
Record Response := mkResponse { status_code : Z; response_json : outcome json }.

(** Values stored in the dictionary [process_message] returns. *)
Inductive value :=
| VStr (s : str)
| VList (l : list str).

(** What the program does to the outside, in order. *)
Inductive Event :=
| EvPrint (line : str)
| EvLoadClients
| EvEncode (text : str)
| EvQuery (vector : list float) (top_k : Z) (include_metadata : bool)
| EvPost (request : Request)
| EvRun (host : str) (port : Z).

Definition is_post (ev : Event) : bool :=
  match ev with EvPost _ => true | _ => false end.

(** Number of [requests.post] calls recorded in a trace. *)
Definition post_calls (t : list Event) : nat := length (List.filter is_post t).

Section Pipeline.
(** The state of the outside world the services read and change. *)
Context {W : Type}.

Record PyState := mkState { world : W; trace : list Event }.

(** The external collaborators: each call may return or raise, and may
    change the world. *)
Record Services := mkServices {
  (* Pinecone(...), pinecone.Index(...), SentenceTransformer(...) *)
  load_clients : W -> outcome unit * W;
  (* self.embedder.encode(text).tolist() *)
  embedder_encode : str -> W -> outcome (list float) * W;
  (* self.index.query(vector=..., top_k=..., include_metadata=...) *)
  index_query : list float -> Z -> bool -> W -> outcome QueryResponse * W;
  (* requests.post(url, json=..., headers=..., timeout=...) *)
  requests_post : Request -> W -> outcome Response * W;
  (* app.run(host=..., port=..., debug=True) *)
  app_run : str -> Z -> W -> outcome unit * W;
}.

(** Computations: state passing, with exceptions. *)
Definition M (A : Type) : Type := PyState -> outcome A * PyState.

#[global] Instance M_ret : MRet M := fun A a st => (Return a, st).
#[global] Instance M_bind : MBind M := fun A B f m st =>
  match m st with
  | (Return a, st') => f a st'
  | (Raise e, st') => (Raise e, st')
  end.

Definition lift {A} (r : outcome A) : M A := fun st => (r, st).

(** [try: body  except Exception as e: handler e] *)
Definition try_except {A} (body : M A) (handler : Exception -> M A) : M A :=
  fun st =>
    match body st with
    | (Return a, st') => (Return a, st')
    | (Raise e, st') => handler e st'
    end.

(** A call to a service: the event is recorded, the world advances. *)
Definition call {A} (ev : Event) (f : W -> outcome A * W) : M A :=
  fun st =>
    let '(r, w') := f (world st) in
    (r, {| world := w'; trace := trace st ++ [ev] |}).

(** [print(line)]: the line is encoded, then written; a line that cannot
    be encoded raises and nothing of it is written. *)
Definition print (line : str) : M unit :=
  fun st =>
    match stdout_encode line with
    | Return _ =>
      (Return tt, {| world := world st; trace := trace st ++ [EvPrint line] |})
    | Raise e => (Raise e, st)
    end.

(* ------------------------------------------------------------------ *)
(** *** Fixed texts and replies of [SimpleRAGBot] *)

Definition nl : str := [10].

(* _call_openrouter, status other than 200 *)
Definition OPENROUTER_ERROR_TEXT : str :=
  utf8 "ขออภัยค่ะ ระบบมีปัญหา กรุณาลองใหม่ค่ะ 🙏".
(* _call_openrouter, exception; process_message, blank answer *)
Definition LLM_ERROR_TEXT : str :=
  utf8 "ขออภัยค่ะ ไม่สามารถตอบได้ กรุณาติดต่อร้านค่ะ 📞".
Definition EMPTY_GENERATION_TEXT : str :=
  utf8 "ขออภัยค่ะ ไม่สามารถตอบได้ กรุณาติดต่อร้านค่ะ 📞".
(* process_message, no documents *)
Definition NO_KNOWLEDGE_TEXT : str :=
  utf8 "ขออภัยค่ะ ไม่พบข้อมูล กรุณาติดต่อร้าน LINE @coffeecorner ค่ะ 📞".
(* process_message, exception *)
Definition PIPELINE_ERROR_TEXT : str :=
  utf8 "ขออภัยค่ะ เกิดข้อผิดพลาด กรุณาลองใหม่ค่ะ 🙏".

Definition k_reply : str := utf8 "reply".
Definition k_quick_replies : str := utf8 "quick_replies".
Definition k_sources : str := utf8 "sources".

Definition NO_KNOWLEDGE_QUICK_REPLIES : list str :=
  [utf8 "☕ เมนูเครื่องดื่ม"; utf8 "🕐 เวลาเปิด-ปิด"].
Definition ANSWER_QUICK_REPLIES : list str :=
  [utf8 "☕ เมนูเครื่องดื่ม"; utf8 "🍕 เมนูอาหาร"; utf8 "🕐 เวลาเปิด-ปิด"; utf8 "📍 ที่อยู่"].
Definition PIPELINE_ERROR_QUICK_REPLIES : list str :=
  [utf8 "☕ เมนู"; utf8 "📞 ติดต่อร้าน"].

Definition NO_KNOWLEDGE_REPLY : gmap str value :=
  <[k_reply := VStr NO_KNOWLEDGE_TEXT]>
    (<[k_quick_replies := VList NO_KNOWLEDGE_QUICK_REPLIES]> ∅).

Definition PIPELINE_ERROR_REPLY : gmap str value :=
  <[k_reply := VStr PIPELINE_ERROR_TEXT]>
    (<[k_quick_replies := VList PIPELINE_ERROR_QUICK_REPLIES]> ∅).

(** The dictionary returned after generation. *)
Definition answer_reply (answer : str) (documents : list Document)
  : gmap str value :=
  <[k_reply := VStr answer]>
    (<[k_quick_replies := VList ANSWER_QUICK_REPLIES]>
       (<[k_sources := VList (map title (take 2 documents))]> ∅)).

(* ------------------------------------------------------------------ *)
(** *** [SimpleRAGBot] *)

Variable cfg : Config.
Variable self : Services.

(** [SimpleRAGBot.__init__] *)
Definition SimpleRAGBot_init : M unit :=
  print (utf8 "🤖 เริ่มต้น Simple RAG Bot...");;
  call EvLoadClients (load_clients self);;
  print (utf8 "✅ RAG Bot พร้อมใช้งาน!").

(** [m.get(key, '')] on the metadata of a match. *)
Definition metadata_get (m : gmap str str) (key : str) : str :=
  default [] (m !! key).

(** The loop of [search_knowledge]: one dictionary appended per match. *)
Fixpoint append_documents (ms : list Match) (documents : list Document)
  : outcome (list Document) :=
  match ms with
  | [] => Return documents
  | m :: rest =>
    match metadata m with
    | Some md =>
      append_documents rest
        (documents ++ [ {| title := metadata_get md (utf8 "title");
                           content := metadata_get md (utf8 "content");
                           doc_score := score m |} ])
    | None =>
      Raise (mkException AttributeError
               (utf8 "'NoneType' object has no attribute 'get'"))
    end
  end.

(** [SimpleRAGBot.search_knowledge] *)
Definition search_knowledge (query : str) (top_k : Z) : M (list Document) :=
  query_vector ← call (EvEncode query) (embedder_encode self query);
  results ← call (EvQuery query_vector top_k true)
                 (index_query self query_vector top_k true);
  lift (append_documents (matches results) []).

(** [f"Bearer {Config.OPENROUTER_API_KEY}"]: [None] prints as [None]. *)
Definition format_option (v : option str) : str :=
  match v with Some s => s | None => utf8 "None" end.

Definition openrouter_request (prompt : str) : Request :=
  {| url := utf8 "https://openrouter.ai/api/v1/chat/completions";
     json_model := OPENROUTER_MODEL;
     json_messages := [(utf8 "user", prompt)];
     json_max_tokens := 1000;
     json_temperature := (3 # 10)%Q;
     header_Authorization := utf8 "Bearer " ++ format_option (OPENROUTER_API_KEY cfg);
     header_Content_Type := utf8 "application/json";
     timeout := 30 |}.

(** [SimpleRAGBot._call_openrouter] *)
Definition _call_openrouter (prompt : str) : M str :=
  try_except
    (response ← call (EvPost (openrouter_request prompt))
                     (requests_post self (openrouter_request prompt));
     if (status_code response =? 200)%Z then
       result ← lift (response_json response);
       choices ← lift (getitem_str result (utf8 "choices"));
       choice ← lift (getitem_0 choices);
       message ← lift (getitem_str choice (utf8 "message"));
       content ← lift (getitem_str message (utf8 "content"));
       lift (call_strip content)
     else
       print (utf8 "OpenRouter Error: " ++ str_of_Z (status_code response));;
       mret OPENROUTER_ERROR_TEXT)
    (fun e =>
       print (utf8 "LLM Error: " ++ exc_str e);;
       mret LLM_ERROR_TEXT).

Definition render_document (doc : Document) : str :=
  utf8 "📄 " ++ title doc ++ utf8 ": " ++ content doc.

Definition build_prompt (query : str) (context : str) : str :=
  utf8 "คุณคือผู้ช่วยของร้านกาแฟ " ++ dquote ++ utf8 "Coffee Corner" ++ dquote
    ++ utf8 " 🏪" ++ nl
  ++ nl
  ++ utf8 "กฎการตอบ:" ++ nl
  ++ utf8 "- ตอบเป็นภาษาไทยและใส่อีโมจิ" ++ nl
  ++ utf8 "- ใช้ข้อมูลที่ให้มาเท่านั้น" ++ nl
  ++ utf8 "- ตอบสั้น เหมาะสำหรับ LINE chat" ++ nl
  ++ utf8 "- ใส่ราคาชัดเจน" ++ nl
  ++ utf8 "- ไม่ตอบเป็น markdown format" ++ nl
  ++ nl
  ++ utf8 "ข้อมูลร้าน:" ++ nl
  ++ context ++ nl
  ++ nl
  ++ utf8 "คำถาม: " ++ query ++ nl
  ++ utf8 "ตอบ:".

(** [SimpleRAGBot.generate_response] *)
Definition generate_response (query : str) (context_docs : list Document)
  : M str :=
  let context := join nl (map render_document context_docs) in
  let prompt := build_prompt query context in
  _call_openrouter prompt.

(** Truth value of a list: [bool(l)]. *)
Definition list_truthy {A} (l : list A) : bool :=
  match l with [] => false | _ :: _ => true end.

(** The [try] block of [process_message]. *)
Definition process_message_body (user_message : str) : M (gmap str value) :=
  documents ← search_knowledge user_message 4;
  if negb (list_truthy documents) then
    mret NO_KNOWLEDGE_REPLY
  else
    answer ← generate_response user_message documents;
    let answer :=
      if negb (str_truthy (strip answer)) then EMPTY_GENERATION_TEXT
      else answer in
    mret (answer_reply answer documents).

(** [SimpleRAGBot.process_message] *)
Definition process_message (user_message : str) : M (gmap str value) :=
  try_except
    (process_message_body user_message)
    (fun e =>
       print (utf8 "RAG Error: " ++ exc_str e);;
       mret PIPELINE_ERROR_REPLY).

(* ------------------------------------------------------------------ *)
(** *** Module level of [app.py] *)

(** The statements run when [app] is imported: the configuration check
    (line 18), then the construction of the bot (line 137). *)
Definition app_import (environ : gmap str str) : M unit :=
  _ ← lift (validate_config (load_Config environ));
  SimpleRAGBot_init.

End Pipeline.

Arguments PyState : clear implicits.
Arguments Services : clear implicits.
Arguments M : clear implicits.

(* ===================================================================== *)
(** ** Readers of a reply, and what the properties speak about *)
(* ===================================================================== *)

(** [rag_result['reply']], as [handle_message] reads it. *)
Definition reply_text (r : gmap str value) : option str :=
  match r !! k_reply with
  | Some (VStr t) => Some t
  | _ => None
  end.

(** [rag_result.get('quick_replies')] *)
Definition quick_replies (r : gmap str value) : option (list str) :=
  match r !! k_quick_replies with
  | Some (VList l) => Some l
  | _ => None
  end.

(** [result.get('sources')]; [None] when the key is not in the dictionary. *)
Definition sources (r : gmap str value) : option (list str) :=
  match r !! k_sources with
  | Some (VList l) => Some l
  | _ => None
  end.

(** A RagReply: a text, a list of quick replies, and possibly a list of at
    most two sources; no other key. *)
Definition well_formed_reply (r : gmap str value) : bool :=
  match r !! k_reply, r !! k_quick_replies, r !! k_sources with
  | Some (VStr _), Some (VList _), None => (size r =? 2)%nat
  | Some (VStr _), Some (VList _), Some (VList s) =>
    (length s <=? 2)%nat && (size r =? 3)%nat
  | _, _, _ => false
  end.

(** What the chain [response.json()['choices'][0]['message']['content'].strip()]
    evaluates to. *)
Definition completion_text (response : Response) : outcome str :=
  result ← response_json response;
  choices ← getitem_str result (utf8 "choices");
  choice ← getitem_0 choices;
  message ← getitem_str choice (utf8 "message");
  content ← getitem_str message (utf8 "content");
  call_strip content.

(** The prompt [generate_response] sends for a query and its documents. *)
Definition prompt_of (query : str) (documents : list Document) : str :=
  build_prompt query (join nl (map render_document documents)).

(** The four fixed apology texts of [app.py]. *)
Definition apology_texts : list str :=
  [NO_KNOWLEDGE_TEXT; PIPELINE_ERROR_TEXT; OPENROUTER_ERROR_TEXT; LLM_ERROR_TEXT].

(** [t] is a generated answer for the message: retrieval found documents, the
    completion endpoint answered 200 for the prompt built from them, and [t]
    is the stripped, non-blank content of that answer. *)
Definition grounded_answer {W} (cfg : Config) (self : Services W)
    (user_message : str) (st : PyState W) (t : str) : Prop :=
  exists documents st1 response w',
    search_knowledge self user_message 4 st = (Return documents, st1)
    /\ documents <> []
    /\ requests_post self (openrouter_request cfg (prompt_of user_message documents))
         (world st1) = (Return response, w')
    /\ status_code response = 200%Z
    /\ completion_text response = Return t
    /\ t <> [].

(** Services whose answers do not depend on the state of the world. *)
Definition fixed_output {W} (self : Services W) : Prop :=
  (forall text w w', (embedder_encode self text w).1 = (embedder_encode self text w').1)
  /\ (forall v k b w w', (index_query self v k b w).1 = (index_query self v k b w').1)
  /\ (forall rq w w', (requests_post self rq w).1 = (requests_post self rq w').1).

(* ===================================================================== *)
(** ** Test doubles *)
(* ===================================================================== *)

(** Services with canned answers; the world counts the calls made. *)
Definition stub (enc : outcome (list float)) (qr : outcome QueryResponse)
    (resp : outcome Response) : Services nat :=
  {| load_clients := fun w => (Return tt, S w);
     embedder_encode := fun _ w => (enc, S w);
     index_query := fun _ _ _ w => (qr, S w);
     requests_post := fun _ w => (resp, S w);
     app_run := fun _ _ w => (Return tt, S w) |}.

Definition st0 : PyState nat := {| world := 0%nat; trace := [] |}.

Definition cfg0 : Config :=
  {| PINECONE_API_KEY := Some (utf8 "pc-key");
     OPENROUTER_API_KEY := Some (utf8 "or-key");
     LINE_CHANNEL_ACCESS_TOKEN := Some (utf8 "line-token");
     LINE_CHANNEL_SECRET := Some (utf8 "line-secret") |}.

Definition vec0 : list float := [0.25%float; 0.5%float].

Definition latte_query : str := utf8 "ราคาลาเต้เท่าไร?".

Definition match_of (t c : str) (s : float) : Match :=
  {| metadata := Some (<[utf8 "title" := t]> (<[utf8 "content" := c]> ∅));
     score := s |}.

Definition latte : Match := match_of (utf8 "เมนูลาเต้") (utf8 "45 บาท") 0.75%float.
Definition hours : Match := match_of (utf8 "เวลาเปิด-ปิด") (utf8 "07:00-20:00") 0.5%float.
Definition parking : Match := match_of (utf8 "ที่จอดรถ") (utf8 "มีที่จอดรถ 10 คัน") 0.25%float.

(** The documents [search_knowledge] builds from these matches. *)
Definition latte_document : Document :=
  {| title := utf8 "เมนูลาเต้"; content := utf8 "45 บาท"; doc_score := 0.75%float |}.
Definition hours_document : Document :=
  {| title := utf8 "เวลาเปิด-ปิด"; content := utf8 "07:00-20:00"; doc_score := 0.5%float |}.
Definition parking_document : Document :=
  {| title := utf8 "ที่จอดรถ"; content := utf8 "มีที่จอดรถ 10 คัน"; doc_score := 0.25%float |}.

(** The state after the embedding and the query of a test double. *)
Definition st_retrieved : PyState nat :=
  {| world := 2%nat; trace := [EvEncode latte_query; EvQuery vec0 4 true] |}.

(** A 200 answer of the completion endpoint carrying [text]. *)
Definition completion (text : str) : Response :=
  {| status_code := 200;
     response_json :=
       Return (JObject {[ utf8 "choices" :=
         JArray [JObject {[ utf8 "message" :=
           JObject {[ utf8 "content" := JString text ]} ]}] ]}) |}.

Definition timeout_error : Exception :=
  mkException (LibraryError (utf8 "ReadTimeout")) (utf8 "Read timed out. (read timeout=30)").
Definition index_error : Exception :=
  mkException (LibraryError (utf8 "PineconeApiException")) (utf8 "(401) Unauthorized").

(** One document found, the generator answers. *)
Definition bot_answering : Services nat :=
  stub (Return vec0) (Return {| matches := [latte] |})
       (Return (completion (utf8 " ลาเต้ 45 บาทค่ะ ☕ "))).
(** Three documents found, the generator answers. *)
Definition bot_three_documents : Services nat :=
  stub (Return vec0) (Return {| matches := [latte; hours; parking] |})
       (Return (completion (utf8 "ลาเต้ 45 บาทค่ะ ☕"))).
(** Nothing found. *)
Definition bot_no_match : Services nat :=
  stub (Return vec0) (Return {| matches := [] |})
       (Return (completion (utf8 "ลาเต้ 45 บาทค่ะ ☕"))).
(** The index query fails. *)
Definition bot_index_down : Services nat :=
  stub (Return vec0) (Raise index_error)
       (Return (completion (utf8 "ลาเต้ 45 บาทค่ะ ☕"))).
(** The completion call times out. *)
Definition bot_llm_timeout : Services nat :=
  stub (Return vec0) (Return {| matches := [latte] |}) (Raise timeout_error).
(** The completion endpoint answers 500. *)
Definition bot_llm_500 : Services nat :=
  stub (Return vec0) (Return {| matches := [latte] |})
       (Return {| status_code := 500; response_json := Return JNull |}).
(** The completion endpoint answers 200 with white space only. *)
Definition bot_llm_blank : Services nat :=
  stub (Return vec0) (Return {| matches := [latte] |})
       (Return (completion [32; 10; 0xA0; 9])).

(** An environment with the four variables set, one of them to nothing. *)
Definition environ_empty_key : gmap str str :=
  <[utf8 "PINECONE_API_KEY" := []]>
    (<[utf8 "OPENROUTER_API_KEY" := utf8 "or-key"]>
       (<[utf8 "LINE_CHANNEL_ACCESS_TOKEN" := utf8 "line-token"]>
          (<[utf8 "LINE_CHANNEL_SECRET" := utf8 "line-secret"]> ∅))).

(** An environment with two of the four variables not set. *)
Definition environ_two_unset : gmap str str :=
  <[utf8 "PINECONE_API_KEY" := utf8 "pc-key"]>
    (<[utf8 "LINE_CHANNEL_ACCESS_TOKEN" := utf8 "line-token"]> ∅).

(* ===================================================================== *)
(** ** app.py: the LINE webhook *)
(* ===================================================================== *)

(** A call to a collaborator that leaves no entry in the trace: only the
    world records it. *)
Definition perform {W A} (f : W -> outcome A * W) : M W A :=
  fun st =>
    let '(r, w') := f (world st) in
    (r, {| world := w'; trace := trace st |}).

(** [try: body  except C: handler], for the exceptions [is_C] recognises;
    any other exception propagates. *)
Definition try_except_class {W A} (is_C : Exception -> bool)
    (body : M W A) (handler : M W A) : M W A :=
  fun st =>
    match body st with
    | (Return a, st') => (Return a, st')
    | (Raise e, st') => if is_C e then handler st' else (Raise e, st')
    end.

#[global] Instance ExceptionClass_eq_dec : EqDecision ExceptionClass.
Proof. solve_decision. Defined.

(** [isinstance(e, InvalidSignatureError)], the class of [linebot.exceptions]. *)
Definition is_InvalidSignatureError (e : Exception) : bool :=
  bool_decide (exc_class e = LibraryError (utf8 "InvalidSignatureError")).

(** [d[key]] on a dictionary. *)
Definition dict_getitem (d : gmap str value) (key : str) : outcome value :=
  match d !! key with
  | Some v => Return v
  | None => Raise (mkException KeyError (utf8 "'" ++ key ++ utf8 "'"))
  end.



(** [v[:n]] *)
Definition slice_to (n : nat) (v : value) : value :=
  match v with
  | VStr s => VStr (take n s)
  | VList l => VList (take n l)
  end.

(** [QuickReplyButton(action=MessageAction(label=..., text=...))] *)
Record QuickReplyButton := mkQuickReplyButton { action_label : str; action_text : str }.

(** [TextSendMessage(text=..., quick_reply=QuickReply(items=...))];
    [quick_reply] is [None] when no button is attached. *)
Record TextSendMessage := mkTextSendMessage {
  message_text : value;
  quick_reply : option (list QuickReplyButton);
}.

(** [event.source]: the attribute read from it; a user id may be [None]. *)
Record Source := mkSource { user_id : option str }.

(** The fields of a [MessageEvent] that [handle_message] reads;
    [event_source] is [None] for an event decoded without a source. *)
Record MessageEvent := mkMessageEvent {
  event_message_text : str;
  event_source : option Source;
  event_reply_token : str;
}.


(** [line_bot_api]: the one method used. *)
Record LineBotApi (W : Type) := mkLineBotApi {
  reply_message : str -> TextSendMessage -> W -> outcome unit * W;
}.
Arguments reply_message {W} _ _ _ _.

(** The fields of Flask's [request] that [webhook] reads; [headers_get] is the
    lookup of a header by name. *)
Record FlaskRequest := mkFlaskRequest {
  headers_get : str -> option str;
  get_data : str;
}.

Section Webhook.
Context {W : Type}.
(** [repr] of a list of strings, used when a list is formatted. *)
Variable repr_list : list str -> str.
Variable cfg : Config.
Variable rag_bot : Services W.
Variable line_bot_api : LineBotApi W.
(** [handler.handle(body, signature)]: the dispatcher of the LINE SDK, with
    [handle_message] registered for text messages. *)
Variable handler_handle : str -> str -> M W unit.

(** What an f-string prints for a string or a list. *)
Definition format_value (v : value) : str :=
  match v with
  | VStr s => s
  | VList l => repr_list l
  end.



(** [webhook()]: the JSON body and the status code of the answer. *)
Definition webhook (request : FlaskRequest) : M W (gmap str str * Z) :=
  let signature := default [] (headers_get request (utf8 "X-Line-Signature")) in
  let body := get_data request in
  try_except_class is_InvalidSignatureError
    (handler_handle body signature;;
     mret ({[ utf8 "status" := utf8 "OK" ]}, 200%Z))
    (mret ({[ utf8 "error" := utf8 "Invalid signature" ]}, 400%Z)).

(** The loop of [test_rag] over the test queries. *)
Fixpoint test_rag_loop (test_queries : list str) : M W unit :=
  match test_queries with
  | [] => mret tt
  | query :: rest =>
    print (nl ++ utf8 "👤 " ++ query);;
    result ← process_message cfg rag_bot query;
    reply ← lift (dict_getitem result k_reply);
    print (utf8 "🤖 " ++ format_value reply);;
    print (utf8 "📚 Sources: "
           ++ format_value (default (VList []) (result !! k_sources)));;
    test_rag_loop rest
  end.

(** [test_rag()] *)
Definition test_rag : M W unit :=
  print (utf8 "🧪 Testing RAG Bot...");;
  test_rag_loop [utf8 "สวัสดีครับ"; utf8 "ราคาลาเต้เท่าไร?"; utf8 "ร้านเปิดกี่โมง?";
                 utf8 "มีที่จอดรถไหม?"].

End Webhook.

(** [len(sys.argv) > 1 and sys.argv[1] == "test"] *)
Definition wants_test (argv : list str) : bool :=
  match argv with
  | _ :: argument :: _ => bool_decide (argument = utf8 "test")
  | _ => false
  end.

(** [python app.py ...]: the import of the module, then the [__main__]
    block: [test_rag()] when the first argument is [test], and
    [app.run(host='0.0.0.0', port=8000, debug=True)] otherwise. *)
Definition app_main {W : Type} (repr_list : list str -> str) (rag_bot : Services W)
    (argv : list str) (environ : gmap str str) : M W unit :=
  app_import rag_bot environ;;
  if wants_test argv then test_rag repr_list (load_Config environ) rag_bot
  else call (EvRun (utf8 "0.0.0.0") 8000) (app_run rag_bot (utf8 "0.0.0.0") 8000).

(* ===================================================================== *)
(** ** setup.py *)
(* ===================================================================== *)

Inductive CloudProvider := AWS.
Inductive AwsRegion := US_EAST_1.

(** [ServerlessSpec(cloud=..., region=...)] *)
Record ServerlessSpec := mkServerlessSpec { cloud : CloudProvider; region : AwsRegion }.

(** One of the dictionaries passed to [index.upsert]. *)
Record VectorEntry := mkVectorEntry {
  vector_id : str;
  vector_values : list float;
  vector_metadata : gmap str json;
}.

(** The collaborators of the setup script. *)
Record SetupServices (W : Type) := mkSetupServices {
  (* Pinecone(api_key=...) *)
  Pinecone_new : option str -> W -> outcome unit * W;
  (* [idx.name for idx in pc.list_indexes()] *)
  pc_list_indexes : W -> outcome (list str) * W;
  (* pc.create_index(name=..., dimension=..., metric=..., spec=...) *)
  pc_create_index : str -> Z -> str -> ServerlessSpec -> W -> outcome unit * W;
  (* SentenceTransformer(name) *)
  SentenceTransformer_new : str -> W -> outcome unit * W;
  (* pc.Index(name) *)
  pc_Index : str -> W -> outcome unit * W;
  (* open('cafe_data.json', 'r', encoding='utf-8') and json.load(f) *)
  load_cafe_data : str -> W -> outcome json * W;
  (* embedder.encode(text).tolist() *)
  setup_encode : str -> W -> outcome (list float) * W;
  (* index.upsert(vectors) *)
  index_upsert : list VectorEntry -> W -> outcome unit * W;
}.
Arguments Pinecone_new {W} _ _ _.
Arguments pc_list_indexes {W} _ _.
Arguments pc_create_index {W} _ _ _ _ _ _.
Arguments SentenceTransformer_new {W} _ _ _.
Arguments pc_Index {W} _ _ _.
Arguments load_cafe_data {W} _ _ _.
Arguments setup_encode {W} _ _ _.
Arguments index_upsert {W} _ _ _.

(** What [for ... in v] iterates over, for a decoded JSON value: the items of
    a list, the keys of an object, the characters of a string. *)
Definition json_iter (v : json) : outcome (list json) :=
  match v with
  | JArray l => Return l
  | JObject o => Return (map (fun kv => JString kv.1) (map_to_list o))
  | JString s => Return (map (fun c => JString [c]) s)
  | _ =>
    Raise (mkException TypeError
             (utf8 "'" ++ type_name v ++ utf8 "' object is not iterable"))
  end.

(** [doc.get(key, '')] *)
Definition json_get (doc : json) (key : str) : outcome json :=
  match doc with
  | JObject o => Return (default (JString []) (o !! key))
  | _ =>
    Raise (mkException AttributeError
             (utf8 "'" ++ type_name doc ++ utf8 "' object has no attribute 'get'"))
  end.

(** [s * n] for a string. *)
Definition str_repeat (s : str) (n : nat) : str := concat (replicate n s).

Section Setup.
Context {W : Type}.
(** [str(v)] for a decoded JSON value, as an f-string formats it. *)
Variable py_str : json -> str.
Variable repr_list : list str -> str.
(** The process environment, from which [Config] is filled. *)
Variable environ : gmap str str.
Variable svc : SetupServices W.

(** [setup_pinecone_index()] *)
Definition setup_pinecone_index : M W unit :=
  print (utf8 "📊 Setting up Pinecone index...");;
  perform (Pinecone_new svc (PINECONE_API_KEY (load_Config environ)));;
  existing_indexes ← perform (pc_list_indexes svc);
  if negb (bool_decide (PINECONE_INDEX_NAME ∈ existing_indexes)) then
    perform (pc_create_index svc PINECONE_INDEX_NAME EMBEDDING_DIMENSION
               (utf8 "cosine") {| cloud := AWS; region := US_EAST_1 |});;
    print (utf8 "✅ Created index: " ++ PINECONE_INDEX_NAME)
  else
    print (utf8 "✅ Index already exists: " ++ PINECONE_INDEX_NAME).

(** The body of the loop of [import_cafe_data], for the record [doc] at
    position [i]: the dictionary appended to [vectors]. *)
Definition vector_of (i : nat) (doc : json) : M W VectorEntry :=
  title_ ← lift (getitem_str doc (utf8 "title"));
  content_ ← lift (getitem_str doc (utf8 "content"));
  let text := py_str title_ ++ utf8 " " ++ py_str content_ in
  vector ← call (EvEncode text) (setup_encode svc text);
  title_ ← lift (getitem_str doc (utf8 "title"));
  content_ ← lift (getitem_str doc (utf8 "content"));
  source_url ← lift (json_get doc (utf8 "source_url"));
  type_ ← lift (json_get doc (utf8 "type"));
  mret {| vector_id := utf8 "cafe_" ++ str_of_Z (Z.of_nat i);
          vector_values := vector;
          vector_metadata :=
            <[utf8 "title" := title_]>
              (<[utf8 "content" := content_]>
                 (<[utf8 "source_url" := source_url]>
                    (<[utf8 "type" := type_]> ∅))) |}.

(** The loop [for i, doc in enumerate(cafe_docs)]. *)
Fixpoint build_vectors (docs : list json) (i : nat) (vectors : list VectorEntry)
  : M W (list VectorEntry) :=
  match docs with
  | [] => mret vectors
  | doc :: rest =>
    entry ← vector_of i doc;
    build_vectors rest (S i) (vectors ++ [entry])
  end.

(** [import_cafe_data()] *)
Definition import_cafe_data : M W Z :=
  print (utf8 "🏪 Importing cafe data...");;
  perform (SentenceTransformer_new svc (utf8 "all-MiniLM-L6-v2"));;
  perform (Pinecone_new svc (PINECONE_API_KEY (load_Config environ)));;
  perform (pc_Index svc PINECONE_INDEX_NAME);;
  cafe_docs ← perform (load_cafe_data svc (utf8 "cafe_data.json"));
  docs ← lift (json_iter cafe_docs);
  vectors ← build_vectors docs 0 [];
  perform (index_upsert svc vectors);;
  print (utf8 "✅ Uploaded " ++ str_of_Z (Z.of_nat (length vectors)) ++ utf8 " documents");;
  mret (Z.of_nat (length vectors)).

(** The services [SimpleRAGBot] uses. *)
Variable bot : Services W.

(** The loop of [verify_setup] over the test queries. *)
Fixpoint verify_queries (test_queries : list str) : M W unit :=
  match test_queries with
  | [] => mret tt
  | query :: rest =>
    results ← search_knowledge bot query 1;
    match results with
    | first :: _ =>
      print (utf8 "✅ Query '" ++ query ++ utf8 "': Found '" ++ title first ++ utf8 "'")
    | [] =>
      print (utf8 "❌ Query '" ++ query ++ utf8 "': No results")
    end;;
    verify_queries rest
  end.

(** [verify_setup()]; [from app import SimpleRAGBot] runs the module level of
    [app.py] first. *)
Definition verify_setup : M W bool :=
  print (utf8 "🔍 Verifying setup...");;
  app_import bot environ;;
  SimpleRAGBot_init bot;;
  verify_queries [utf8 "เมนู"; utf8 "ราคา"; utf8 "เวลาเปิด"];;
  print (nl ++ utf8 "🤖 Testing full RAG...");;
  result ← process_message (load_Config environ) bot (utf8 "ราคาลาเต้เท่าไร?");
  reply ← lift (dict_getitem result k_reply);
  print (utf8 "Response: " ++ format_value repr_list (slice_to 100 reply) ++ utf8 "...");;
  mret true.

(** The script: [python setup.py]. *)
Definition setup_main : M W unit :=
  print (utf8 "🚀 Coffee Corner RAG Bot Setup");;
  print (str_repeat (utf8 "=") 50);;
  try_except
    (setup_pinecone_index;;
     count ← import_cafe_data;
     verify_setup;;
     print (nl ++ utf8 "🎉 Setup completed! " ++ str_of_Z count ++ utf8 " documents ready");;
     print (utf8 "📱 Run: python app.py (for LINE bot)");;
     print (utf8 "🧪 Run: python app.py test (for testing)"))
    (fun e =>
       print (nl ++ utf8 "❌ Setup failed: " ++ exc_str e);;
       print (utf8 "💡 Check your .env file and API keys")).

End Setup.

(* ===================================================================== *)
(** ** What the further properties speak about *)
(* ===================================================================== *)

(** The dictionary [search_knowledge] appends for a match with metadata. *)
Definition document_of (m : Match) (md : gmap str str) : Document :=
  {| title := metadata_get md (utf8 "title");
     content := metadata_get md (utf8 "content");
     doc_score := score m |}.

(** The text at [['choices'][0]['message']['content']] of a decoded answer,
    when the answer has that shape. *)
Definition completion_content (response : Response) : option str :=
  match response_json response with
  | Return (JObject o) =>
    match o !! utf8 "choices" with
    | Some (JArray (JObject choice :: _)) =>
      match choice !! utf8 "message" with
      | Some (JObject message) =>
        match message !! utf8 "content" with
        | Some (JString c) => Some c
        | _ => None
        end
      | _ => None
      end
    | _ => None
    end
  | _ => None
  end.

(** The services with another [index_upsert]. *)
Definition with_index_upsert {W} (svc : SetupServices W)
    (upsert : list VectorEntry -> W -> outcome unit * W) : SetupServices W :=
  {| Pinecone_new := Pinecone_new svc;
     pc_list_indexes := pc_list_indexes svc;
     pc_create_index := pc_create_index svc;
     SentenceTransformer_new := SentenceTransformer_new svc;
     pc_Index := pc_Index svc;
     load_cafe_data := load_cafe_data svc;
     setup_encode := setup_encode svc;
     index_upsert := upsert |}.

(** The services with another [pc_create_index]. *)
Definition with_create_index {W} (svc : SetupServices W)
    (create : str -> Z -> str -> ServerlessSpec -> W -> outcome unit * W)
  : SetupServices W :=
  {| Pinecone_new := Pinecone_new svc;
     pc_list_indexes := pc_list_indexes svc;
     pc_create_index := create;
     SentenceTransformer_new := SentenceTransformer_new svc;
     pc_Index := pc_Index svc;
     load_cafe_data := load_cafe_data svc;
     setup_encode := setup_encode svc;
     index_upsert := index_upsert svc |}.

(** The dictionary the import builds at position [i] for the record [doc]:
    the id counts the records, the metadata holds the record's title and
    content, and its source and type or the empty string. *)
Definition entry_for (i : nat) (doc : json) (entry : VectorEntry) : Prop :=
  exists o t c,
    doc = JObject o
    /\ o !! utf8 "title" = Some t
    /\ o !! utf8 "content" = Some c
    /\ vector_id entry = utf8 "cafe_" ++ str_of_Z (Z.of_nat i)
    /\ dom (vector_metadata entry)
       = {[ utf8 "title"; utf8 "content"; utf8 "source_url"; utf8 "type" ]}
    /\ vector_metadata entry !! utf8 "title" = Some t
    /\ vector_metadata entry !! utf8 "content" = Some c
    /\ vector_metadata entry !! utf8 "source_url"
       = Some (default (JString []) (o !! utf8 "source_url"))
    /\ vector_metadata entry !! utf8 "type"
       = Some (default (JString []) (o !! utf8 "type")).

(** The text the import embeds for a record. *)
Definition embedded_text (py_str : json -> str) (doc : json) : option str :=
  match doc with
  | JObject o =>
    match o !! utf8 "title", o !! utf8 "content" with
    | Some t, Some c => Some (py_str t ++ utf8 " " ++ py_str c)
    | _, _ => None
    end
  | _ => None
  end.

(** Literals made of ASCII characters only. *)
Definition ascii_only (s : string) : Prop :=
  Forall (fun a => (N_of_ascii a < 128)%N) (list_ascii_of_string s).

(** The events of the start of the server. *)
Definition is_run (ev : Event) : bool :=
  match ev with EvRun _ _ => true | _ => false end.


(** From [st] to [st'] the trace only grew, and not by a start of the
    server. *)
Definition grew_without_run {W} (st st' : PyState W) : Prop :=
  exists new, trace st' = trace st ++ new /\ existsb is_run new = false.

(** A record of [cafe_data.json] the import accepts: an object with a title
    and a content. *)
Definition importable (doc : json) : Prop :=
  exists o t c, doc = JObject o /\ o !! utf8 "title" = Some t /\ o !! utf8 "content" = Some c.

(* ===================================================================== *)
(** ** More test doubles *)
(* ===================================================================== *)

(** A match whose metadata has no title and no content. *)
Definition untitled : Match := {| metadata := Some ∅; score := 0.125%float |}.
(** A match without metadata. *)
Definition bare : Match := {| metadata := None; score := 0.125%float |}.

Definition bot_untitled : Services nat :=
  stub (Return vec0) (Return {| matches := [latte; untitled] |})
       (Return (completion (utf8 "ลาเต้ 45 บาทค่ะ ☕"))).
Definition bot_bare_match : Services nat :=
  stub (Return vec0) (Return {| matches := [latte; bare] |})
       (Return (completion (utf8 "ลาเต้ 45 บาทค่ะ ☕"))).

(** Services that leave the world alone, for worlds of any type. *)
Definition quiet_stub {W} (enc : outcome (list float)) (qr : outcome QueryResponse)
    (resp : outcome Response) : Services W :=
  {| load_clients := fun w => (Return tt, w);
     embedder_encode := fun _ w => (enc, w);
     index_query := fun _ _ _ w => (qr, w);
     requests_post := fun _ w => (resp, w);
     app_run := fun _ _ w => (Return tt, w) |}.

(** A LINE client whose world is the list of the replies sent. *)
Definition line_outbox : LineBotApi (list (str * TextSendMessage)) :=
  {| reply_message := fun token message w => (Return tt, w ++ [(token, message)]) |}.

Definition line_error : Exception :=
  mkException (LibraryError (utf8 "LineBotApiError")) (utf8 "Invalid reply token").
(** A LINE client that refuses every reply. *)
Definition line_down : LineBotApi (list (str * TextSendMessage)) :=
  {| reply_message := fun _ _ w => (Raise line_error, w) |}.

Definition latte_event : MessageEvent :=
  {| event_message_text := latte_query;
     event_source := Some {| user_id := Some (utf8 "U123") |};
     event_reply_token := utf8 "token-1" |}.

Definition bot_quiet_no_match : Services (list (str * TextSendMessage)) :=
  quiet_stub (Return vec0) (Return {| matches := [] |}) (Raise timeout_error).

Definition outbox0 : PyState (list (str * TextSendMessage)) :=
  {| world := []; trace := [] |}.

(** An environment with the four variables set. *)
Definition environ_full : gmap str str :=
  <[utf8 "PINECONE_API_KEY" := utf8 "pc-key"]>
    (<[utf8 "OPENROUTER_API_KEY" := utf8 "or-key"]>
       (<[utf8 "LINE_CHANNEL_ACCESS_TOKEN" := utf8 "line-token"]>
          (<[utf8 "LINE_CHANNEL_SECRET" := utf8 "line-secret"]> ∅))).

(** The world of the setup doubles: the indexes that exist and the vectors
    uploaded. *)
Record SetupWorld := mkSetupWorld { indexes : list str; uploaded : list VectorEntry }.

(** A Pinecone and an embedder that work, over a given [cafe_data.json]. *)
Definition setup_double (cafe : outcome json) : SetupServices SetupWorld :=
  {| Pinecone_new := fun _ w => (Return tt, w);
     pc_list_indexes := fun w => (Return (indexes w), w);
     pc_create_index := fun name _ _ _ w =>
       (Return tt, {| indexes := indexes w ++ [name]; uploaded := uploaded w |});
     SentenceTransformer_new := fun _ w => (Return tt, w);
     pc_Index := fun _ w => (Return tt, w);
     load_cafe_data := fun _ w => (cafe, w);
     setup_encode := fun _ w => (Return vec0, w);
     index_upsert := fun vs w =>
       (Return tt, {| indexes := indexes w; uploaded := uploaded w ++ vs |}) |}.

Definition latte_record : json :=
  JObject (<[utf8 "title" := JString (utf8 "เมนูลาเต้")]>
             (<[utf8 "content" := JString (utf8 "45 บาท")]> ∅)).
Definition hours_record : json :=
  JObject (<[utf8 "title" := JString (utf8 "เวลาเปิด-ปิด")]>
             (<[utf8 "content" := JString (utf8 "07:00-20:00")]>
                (<[utf8 "type" := JString (utf8 "info")]> ∅))).
(** A record without content. *)
Definition broken_record : json :=
  JObject (<[utf8 "title" := JString (utf8 "ที่จอดรถ")]> ∅).

Definition py_str_double (v : json) : str :=
  match v with JString s => s | _ => type_name v end.

Definition setup_st0 : PyState SetupWorld :=
  {| world := {| indexes := []; uploaded := [] |}; trace := [] |}.
Definition setup_st_existing : PyState SetupWorld :=
  {| world := {| indexes := [PINECONE_INDEX_NAME]; uploaded := [] |}; trace := [] |}.

(** A [cafe_data.json] of two records. *)
Definition cafe_two_records : json := JArray [latte_record; hours_record].

(** The state after [print(line)]. *)
Definition after_print {W} (st : PyState W) (line : str) : PyState W :=
  {| world := world st; trace := trace st ++ [EvPrint line] |}.

(** The state after a service call recorded as [ev] left the world [w]. *)
Definition after_call {W} (st : PyState W) (ev : Event) (w : W) : PyState W :=
  {| world := w; trace := trace st ++ [ev] |}.

(** The answer [process_message] keeps: the generated one unless it is blank. *)
Definition kept_answer (answer : str) : str :=
  if negb (str_truthy (strip answer)) then EMPTY_GENERATION_TEXT else answer.

(** What [print(line)] followed by [return a] gives from the state [st]:
    the value after the line is written, or the error of the encoding, with
    the state untouched. This is how an [except] clause that logs and then
    returns a fallback ends. *)
Definition logged {W A} (st : PyState W) (line : str) (a : A)
  : outcome A * PyState W :=
  match stdout_encode line with
  | Return _ => (Return a, after_print st line)
  | Raise e => (Raise e, st)
  end.


(** A text no [print] can write: one lone surrogate. *)
Definition lone_surrogate : str := [0xDC80%N].

(** An exception whose text holds a lone surrogate. *)
Definition unprintable_error : Exception :=
  mkException (LibraryError (utf8 "Exception")) lone_surrogate.

(** The index fails with an error whose text cannot be printed. *)
Definition bot_index_unprintable : Services nat :=
  stub (Return vec0) (Raise unprintable_error)
       (Return (completion (utf8 "ลาเต้ 45 บาทค่ะ ☕"))).


(* ===================================================================== *)
(** * Properties *)
(* ===================================================================== *)

#[local] Open Scope nat_scope.

(** Literals stay folded in goals; [vm_compute] evaluates them. *)
#[global] Opaque utf8.

(** ** Strings *)

Lemma lstrip_blank s : blank s = true -> lstrip s = [].
Proof.
  induction s as [|c r IH]; simpl; [done|].
  destruct (Py_UNICODE_ISSPACE c); simpl; [exact IH | discriminate].
Qed.

Lemma lstrip_nil s : lstrip s = [] -> blank s = true.
Proof.
  induction s as [|c r IH]; simpl; [done|].
  destruct (Py_UNICODE_ISSPACE c); simpl; [exact IH | discriminate].
Qed.

Lemma lstrip_blank_nil s : blank (lstrip s) = true -> lstrip s = [].
Proof.
  induction s as [|c r IH]; simpl; [done|].
  destruct (Py_UNICODE_ISSPACE c) eqn:Hc; [exact IH|].
  simpl. rewrite Hc. discriminate.
Qed.

Lemma blank_app s t : blank (s ++ t) = blank s && blank t.
Proof. apply forallb_app. Qed.

Lemma blank_rev s : blank (rev s) = blank s.
Proof.
  induction s as [|c r IH]; simpl; [done|].
  rewrite blank_app, IH. simpl. rewrite andb_true_r. apply andb_comm.
Qed.

Lemma rev_nil_inv {A} (l : list A) : rev l = [] -> l = [].
Proof. destruct l as [|a l]; [done|]. simpl. intros H. by destruct (rev l). Qed.

(** [strip] gives the empty string exactly on blank strings. *)
Lemma strip_nil_iff s : strip s = [] <-> blank s = true.
Proof.
  unfold strip, rstrip. split.
  - intros H. apply rev_nil_inv, lstrip_nil in H.
    rewrite blank_rev in H. by apply lstrip_nil, lstrip_blank_nil.
  - intros H. by rewrite (lstrip_blank s H).
Qed.

(** A stripped string is blank only when it is empty. *)
Lemma strip_strip_nil s : strip (strip s) = [] -> strip s = [].
Proof.
  intros H. apply strip_nil_iff in H. unfold strip, rstrip in *.
  rewrite blank_rev in H. by rewrite (lstrip_blank_nil _ H).
Qed.

Lemma kept_answer_blank a : blank a = true -> kept_answer a = EMPTY_GENERATION_TEXT.
Proof.
  intros H. unfold kept_answer. by rewrite (proj2 (strip_nil_iff a) H).
Qed.

Lemma kept_answer_not_blank a : blank a = false -> kept_answer a = a.
Proof.
  intros H. unfold kept_answer. destruct (strip a) eqn:Hs; [|done].
  apply strip_nil_iff in Hs. congruence.
Qed.

Lemma EMPTY_GENERATION_TEXT_nonempty : EMPTY_GENERATION_TEXT <> [].
Proof. by vm_compute. Qed.

Lemma kept_answer_nonempty a : kept_answer a <> [].
Proof.
  unfold kept_answer. destruct (strip a) eqn:Hs; simpl.
  - apply EMPTY_GENERATION_TEXT_nonempty.
  - intros ->. discriminate Hs.
Qed.

Lemma apology_texts_NoDup : NoDup apology_texts.
Proof. apply (bool_decide_unpack (NoDup apology_texts)). by vm_compute. Qed.

Lemma in_apology_no_knowledge : In NO_KNOWLEDGE_TEXT apology_texts.
Proof. left. reflexivity. Qed.

Lemma in_apology_pipeline_error : In PIPELINE_ERROR_TEXT apology_texts.
Proof. right. left. reflexivity. Qed.

Lemma in_apology_openrouter_error : In OPENROUTER_ERROR_TEXT apology_texts.
Proof. right. right. left. reflexivity. Qed.

Lemma in_apology_llm_error : In LLM_ERROR_TEXT apology_texts.
Proof. right. right. right. left. reflexivity. Qed.

Lemma apology_texts_nonempty t : In t apology_texts -> t <> [].
Proof.
  simpl. intros [<-|[<-|[<-|[<-|[]]]]]; by vm_compute.
Qed.

(** ** The dictionaries [process_message] returns *)

Lemma keys_distinct :
  k_reply <> k_quick_replies /\ k_reply <> k_sources /\ k_quick_replies <> k_sources.
Proof. by vm_compute. Qed.

Ltac reply_lookup :=
  destruct keys_distinct as (? & ? & ?);
  unfold reply_text, quick_replies, sources, well_formed_reply,
    answer_reply, NO_KNOWLEDGE_REPLY, PIPELINE_ERROR_REPLY;
  repeat first
    [ rewrite lookup_insert_eq
    | rewrite lookup_insert_ne by congruence
    | rewrite lookup_empty
    | rewrite map_size_insert_None
    | rewrite map_size_empty ].

Lemma answer_reply_text a docs : reply_text (answer_reply a docs) = Some a.
Proof. by reply_lookup. Qed.

Lemma answer_reply_quick_replies a docs :
  quick_replies (answer_reply a docs) = Some ANSWER_QUICK_REPLIES.
Proof. by reply_lookup. Qed.

Lemma answer_reply_sources a docs :
  sources (answer_reply a docs) = Some (map title (take 2 docs)).
Proof. by reply_lookup. Qed.

Lemma answer_reply_has_sources a docs :
  answer_reply a docs !! k_sources = Some (VList (map title (take 2 docs))).
Proof. by reply_lookup. Qed.

Lemma take_2_length {A} (l : list A) : length (take 2 l) <= 2.
Proof. rewrite length_take. lia. Qed.

Lemma first_two_titles_length (docs : list Document) :
  length (map title (take 2 docs)) <= 2.
Proof. rewrite length_map. apply take_2_length. Qed.


Lemma fallback_replies_values :
  reply_text NO_KNOWLEDGE_REPLY = Some NO_KNOWLEDGE_TEXT
  /\ quick_replies NO_KNOWLEDGE_REPLY = Some NO_KNOWLEDGE_QUICK_REPLIES
  /\ NO_KNOWLEDGE_REPLY !! k_sources = None
  /\ well_formed_reply NO_KNOWLEDGE_REPLY = true
  /\ reply_text PIPELINE_ERROR_REPLY = Some PIPELINE_ERROR_TEXT
  /\ quick_replies PIPELINE_ERROR_REPLY = Some PIPELINE_ERROR_QUICK_REPLIES
  /\ PIPELINE_ERROR_REPLY !! k_sources = None
  /\ well_formed_reply PIPELINE_ERROR_REPLY = true.
Proof. by vm_compute. Qed.

(** ** Numerals and ASCII literals *)

Lemma utf8_decode_ascii (bs : list N) :
  Forall (fun b => (b < 128)%N) bs -> utf8_decode bs = bs.
Proof.
  induction 1 as [|b bs Hb _ IH]; [reflexivity|].
  cbn [utf8_decode]. apply N.ltb_lt in Hb. rewrite Hb. by rewrite IH.
Qed.

Lemma utf8_ascii (s : string) :
  ascii_only s -> utf8 s = map N_of_ascii (list_ascii_of_string s).
Proof.
  intros H. with_strategy transparent [utf8] (unfold utf8).
  apply utf8_decode_ascii. by apply Forall_map.
Qed.

Lemma N_of_ascii_inj a b : N_of_ascii a = N_of_ascii b -> a = b.
Proof. intros H. by rewrite <- (ascii_N_embedding a), <- (ascii_N_embedding b), H. Qed.

Lemma utf8_ascii_inj (s1 s2 : string) :
  ascii_only s1 -> ascii_only s2 -> utf8 s1 = utf8 s2 -> s1 = s2.
Proof.
  intros H1 H2. rewrite (utf8_ascii s1 H1), (utf8_ascii s2 H2). intros H.
  rewrite <- (string_of_list_ascii_of_string s1), <- (string_of_list_ascii_of_string s2).
  f_equal. revert H. generalize (list_ascii_of_string s1) (list_ascii_of_string s2).
  induction l as [|a l IH]; intros [|b l']; simpl; intros E; try discriminate; [done|].
  injection E as Ea El. f_equal; [by apply N_of_ascii_inj | by apply IH].
Qed.

Lemma pretty_N_char_ascii x : (N_of_ascii (pretty_N_char x) < 128)%N.
Proof. unfold pretty_N_char. repeat case_match; vm_compute; reflexivity. Qed.

Lemma pretty_N_go_ascii x : forall s, ascii_only s -> ascii_only (pretty_N_go x s).
Proof.
  induction (N.lt_wf_0 x) as [x _ IH]; intros s Hs.
  assert (x = 0 \/ 0 < x)%N as [->|Hx] by lia; [by rewrite pretty_N_go_0|].
  rewrite pretty_N_go_step by done. apply IH; [by apply N.div_lt|].
  constructor; [apply pretty_N_char_ascii | exact Hs].
Qed.

Lemma pretty_nat_ascii (k : nat) : ascii_only (pretty (Z.of_nat k)).
Proof.
  destruct (Z.of_nat k) as [|p|p] eqn:E; [| |lia].
  - repeat constructor.
  - unfold pretty, pretty_Z, pretty, pretty_positive, pretty, pretty_N.
    case_decide; [lia|]. apply pretty_N_go_ascii. constructor.
Qed.

(** The decimal numeral of a position determines the position. *)
Lemma str_of_nat_inj (j k : nat) :
  str_of_Z (Z.of_nat j) = str_of_Z (Z.of_nat k) -> j = k.
Proof.
  unfold str_of_Z. intros H.
  apply utf8_ascii_inj in H; [|apply pretty_nat_ascii..].
  apply (inj pretty) in H. lia.
Qed.

Lemma pretty_Z_ascii (z : Z) : ascii_only (pretty z).
Proof.
  destruct z as [|p|p].
  - repeat constructor.
  - unfold pretty, pretty_Z, pretty, pretty_positive, pretty, pretty_N.
    case_decide; [lia|]. apply pretty_N_go_ascii. constructor.
  - unfold pretty, pretty_Z, pretty, pretty_positive, pretty, pretty_N.
    case_decide; [lia|]. constructor; [vm_compute; reflexivity|].
    apply pretty_N_go_ascii. constructor.
Qed.

(** ** What [print] can write *)

Lemma ascii_not_surrogate (c : N) : (c < 128)%N -> is_surrogate c = false.
Proof.
  intros H. unfold is_surrogate. apply andb_false_iff. left. apply N.leb_gt. lia.
Qed.

Lemma encodable_app (a b : str) : encodable (a ++ b) = encodable a && encodable b.
Proof. unfold encodable. apply forallb_app. Qed.

Lemma encodable_ascii (s : string) : ascii_only s -> encodable (utf8 s) = true.
Proof.
  intros H. rewrite (utf8_ascii s H). unfold encodable, ascii_only in *.
  induction H as [|a l Ha _ IH]; [reflexivity|].
  cbn [map forallb]. by rewrite (ascii_not_surrogate _ Ha), IH.
Qed.

(** A number is always printable. *)
Lemma str_of_Z_encodable (z : Z) : encodable (str_of_Z z) = true.
Proof. apply encodable_ascii, pretty_Z_ascii. Qed.

Lemma hex_digit_not_surrogate (d : N) : (d < 16)%N -> is_surrogate (hex_digit d) = false.
Proof.
  intros H. apply ascii_not_surrogate. unfold hex_digit.
  destruct (d <? 10)%N; lia.
Qed.

Lemma escape_u_encodable (c : N) : encodable (escape_u c) = true.
Proof.
  unfold escape_u, encodable. cbn [forallb].
  rewrite !hex_digit_not_surrogate by (apply N.mod_lt; lia).
  vm_compute; reflexivity.
Qed.

(** The message of the encoding error is itself printable. *)
Lemma UnicodeEncodeError_str_encodable start c stop :
  encodable (UnicodeEncodeError_str start c stop) = true.
Proof.
  unfold UnicodeEncodeError_str. destruct (stop =? S start).
  - rewrite !encodable_app, escape_u_encodable, str_of_Z_encodable.
    vm_compute; reflexivity.
  - rewrite !encodable_app, !str_of_Z_encodable. vm_compute; reflexivity.
Qed.

Lemma first_surrogate_run_encodable (s : str) :
  forall i, encodable s = true -> first_surrogate_run s i = None.
Proof.
  induction s as [|c r IH]; intros i H; [reflexivity|].
  cbn [encodable forallb] in H. apply andb_true_iff in H as [Hc Hr].
  cbn [first_surrogate_run]. apply negb_true_iff in Hc. rewrite Hc. by apply IH.
Qed.

Lemma first_surrogate_run_unencodable (s : str) :
  forall i, encodable s = false -> exists run, first_surrogate_run s i = Some run.
Proof.
  induction s as [|c r IH]; intros i H; [discriminate H|].
  cbn [encodable forallb] in H. cbn [first_surrogate_run].
  destruct (is_surrogate c); [by eexists|]. cbn [negb andb] in H. by apply IH.
Qed.

Lemma stdout_encode_encodable (s : str) : encodable s = true -> stdout_encode s = Return tt.
Proof. intros H. unfold stdout_encode. by rewrite (first_surrogate_run_encodable s 0 H). Qed.

Lemma stdout_encode_unencodable (s : str) :
  encodable s = false ->
  exists e, stdout_encode s = Raise e
            /\ exc_class e = UnicodeEncodeError
            /\ encodable (exc_str e) = true.
Proof.
  intros H. unfold stdout_encode.
  destruct (first_surrogate_run_unencodable s 0 H) as ([[start c] stop] & ->).
  eexists. split; [reflexivity|]. split; [reflexivity|].
  apply UnicodeEncodeError_str_encodable.
Qed.

(** [stdout_encode] raises nothing but the encoding error. *)
Lemma stdout_encode_raises (s : str) e :
  stdout_encode s = Raise e ->
  encodable s = false /\ exc_class e = UnicodeEncodeError /\ encodable (exc_str e) = true.
Proof.
  intros H. destruct (encodable s) eqn:Hs.
  - rewrite (stdout_encode_encodable s Hs) in H. discriminate H.
  - destruct (stdout_encode_unencodable s Hs) as (e' & He & Hc & Hm).
    rewrite He in H. injection H as <-. by split.
Qed.

Lemma stdout_encode_returns (s : str) u : stdout_encode s = Return u -> encodable s = true.
Proof.
  intros H. destruct (encodable s) eqn:Hs; [reflexivity|].
  destruct (stdout_encode_unencodable s Hs) as (e' & He & _). rewrite He in H. discriminate H.
Qed.

Lemma print_encodable {W} (line : str) (st : PyState W) :
  encodable line = true -> print line st = (Return tt, after_print st line).
Proof. intros H. unfold print. by rewrite (stdout_encode_encodable line H). Qed.

Lemma logged_encodable {W A} (st : PyState W) (line : str) (a : A) :
  encodable line = true -> logged st line a = (Return a, after_print st line).
Proof. intros H. unfold logged. by rewrite (stdout_encode_encodable line H). Qed.


(** [print(line)] and then [return a]. *)
Lemma print_then_return {W A} (line : str) (a : A) (st : PyState W) :
  (print line;; mret a) st = logged st line a.
Proof.
  unfold mbind, M_bind, mret, M_ret, print, logged, after_print.
  by destruct (stdout_encode line) as [[]|e].
Qed.

Lemma logged_returns {W A} (st st' : PyState W) (line : str) (a b : A) :
  logged st line a = (Return b, st') ->
  encodable line = true /\ b = a /\ st' = after_print st line.
Proof.
  unfold logged. destruct (stdout_encode line) as [[]|e] eqn:He; [|discriminate].
  intros [= <- <-]. split; [by eapply stdout_encode_returns|done].
Qed.

Lemma logged_raises {W A} (st st' : PyState W) (line : str) (a : A) e :
  logged st line a = (Raise e, st') ->
  encodable line = false /\ st' = st
  /\ exc_class e = UnicodeEncodeError /\ encodable (exc_str e) = true.
Proof.
  unfold logged. destruct (stdout_encode line) as [[]|e'] eqn:He; [discriminate|].
  intros [= <- <-]. destruct (stdout_encode_raises line e' He) as (? & ? & ?). done.
Qed.

(** A log line is printable exactly when the text it reports is. *)
Lemma encodable_RAG_Error (t : str) : encodable (utf8 "RAG Error: " ++ t) = encodable t.
Proof. rewrite encodable_app. by vm_compute (encodable (utf8 "RAG Error: ")). Qed.

Lemma encodable_LLM_Error (t : str) : encodable (utf8 "LLM Error: " ++ t) = encodable t.
Proof. rewrite encodable_app. by vm_compute (encodable (utf8 "LLM Error: ")). Qed.

Lemma encodable_OpenRouter_Error (n : Z) :
  encodable (utf8 "OpenRouter Error: " ++ str_of_Z n) = true.
Proof.
  rewrite encodable_app, str_of_Z_encodable.
  by vm_compute (encodable (utf8 "OpenRouter Error: ")).
Qed.

(** ** The steps of the pipeline, case by case *)

Section Steps.
Context {W : Type} (cfg : Config) (self : Services W).

Lemma post_calls_app t1 t2 : post_calls (t1 ++ t2) = post_calls t1 + post_calls t2.
Proof. unfold post_calls. by rewrite List.filter_app, length_app. Qed.

Ltac count_posts :=
  simpl; rewrite ?post_calls_app; unfold post_calls; simpl; lia.

(** [search_knowledge]: the embedding, then the query, then the loop. *)
Lemma search_knowledge_cases query top_k (st : PyState W) :
  match embedder_encode self query (world st) with
  | (Raise e, w1) =>
    search_knowledge self query top_k st
    = (Raise e, after_call st (EvEncode query) w1)
  | (Return v, w1) =>
    let st1 := after_call st (EvEncode query) w1 in
    match index_query self v top_k true w1 with
    | (Raise e, w2) =>
      search_knowledge self query top_k st
      = (Raise e, after_call st1 (EvQuery v top_k true) w2)
    | (Return results, w2) =>
      search_knowledge self query top_k st
      = (append_documents (matches results) [],
         after_call st1 (EvQuery v top_k true) w2)
    end
  end.
Proof.
  unfold search_knowledge, mbind, M_bind, call, lift, after_call.
  destruct (embedder_encode self query (world st)) as [[v|e] w1]; simpl; [|done].
  by destruct (index_query self v top_k true w1) as [[results|e] w2].
Qed.

(** [search_knowledge] never calls the completion endpoint. *)
Lemma search_knowledge_post_calls query top_k (st st1 : PyState W) r :
  search_knowledge self query top_k st = (r, st1) ->
  post_calls (trace st1) = post_calls (trace st).
Proof.
  pose proof (search_knowledge_cases query top_k st) as H.
  destruct (embedder_encode self query (world st)) as [[v|e] w1]; simpl in H.
  - destruct (index_query self v top_k true w1) as [[results|e] w2];
      rewrite H; intros [= _ <-]; count_posts.
  - rewrite H; intros [= _ <-]; count_posts.
Qed.

Lemma logged_post_calls {A} (st st' : PyState W) (line : str) (a : A) r :
  logged st line a = (r, st') -> post_calls (trace st') = post_calls (trace st).
Proof.
  unfold logged. destruct (stdout_encode line) as [[]|e]; intros [= _ <-];
    [count_posts|reflexivity].
Qed.

Lemma logged_fixed {A} (st st' : PyState W) (line : str) (a : A) :
  (logged st line a).1 = (logged st' line a).1.
Proof. unfold logged. by destruct (stdout_encode line) as [[]|e]. Qed.

(** [_call_openrouter]: one request; the handler logs the error, and what
    its [print] raises leaves the function. *)
Lemma call_openrouter_cases prompt (st : PyState W) :
  let rq := openrouter_request cfg prompt in
  match requests_post self rq (world st) with
  | (Raise e, w) =>
    _call_openrouter cfg self prompt st
    = logged (after_call st (EvPost rq) w) (utf8 "LLM Error: " ++ exc_str e)
        LLM_ERROR_TEXT
  | (Return response, w) =>
    if (status_code response =? 200)%Z then
      match completion_text response with
      | Return a =>
        _call_openrouter cfg self prompt st = (Return a, after_call st (EvPost rq) w)
      | Raise e =>
        _call_openrouter cfg self prompt st
        = logged (after_call st (EvPost rq) w) (utf8 "LLM Error: " ++ exc_str e)
            LLM_ERROR_TEXT
      end
    else
      _call_openrouter cfg self prompt st
      = (Return OPENROUTER_ERROR_TEXT,
         after_print (after_call st (EvPost rq) w)
           (utf8 "OpenRouter Error: " ++ str_of_Z (status_code response)))
  end.
Proof.
  intros rq. unfold _call_openrouter, try_except, completion_text.
  unfold mbind, M_bind, outcome_bind, call, lift, print, mret, M_ret, logged,
    after_print, after_call.
  fold rq.
  destruct (requests_post self rq (world st)) as [[response|e] w]; cbn [world trace];
    [|by destruct (stdout_encode (utf8 "LLM Error: " ++ exc_str e)) as [[]|e']].
  destruct (status_code response =? 200)%Z; cbn [world trace].
  2: { by rewrite (stdout_encode_encodable _
                     (encodable_OpenRouter_Error (status_code response))). }
  destruct (response_json response) as [result|e]; cbn [world trace];
    [|by destruct (stdout_encode (utf8 "LLM Error: " ++ exc_str e)) as [[]|e']].
  destruct (getitem_str result (utf8 "choices")) as [choices|e]; cbn [world trace];
    [|by destruct (stdout_encode (utf8 "LLM Error: " ++ exc_str e)) as [[]|e']].
  destruct (getitem_0 choices) as [choice|e]; cbn [world trace];
    [|by destruct (stdout_encode (utf8 "LLM Error: " ++ exc_str e)) as [[]|e']].
  destruct (getitem_str choice (utf8 "message")) as [message|e]; cbn [world trace];
    [|by destruct (stdout_encode (utf8 "LLM Error: " ++ exc_str e)) as [[]|e']].
  destruct (getitem_str message (utf8 "content")) as [content|e]; cbn [world trace];
    [|by destruct (stdout_encode (utf8 "LLM Error: " ++ exc_str e)) as [[]|e']].
  destruct (call_strip content) as [a|e]; cbn [world trace]; [reflexivity|].
  by destruct (stdout_encode (utf8 "LLM Error: " ++ exc_str e)) as [[]|e'].
Qed.

(** [_call_openrouter] makes exactly one request, whatever comes of it. *)
Lemma call_openrouter_post_calls prompt (st st2 : PyState W) r :
  _call_openrouter cfg self prompt st = (r, st2) ->
  post_calls (trace st2) = S (post_calls (trace st)).
Proof.
  pose proof (call_openrouter_cases prompt st) as H. cbv zeta in H.
  destruct (requests_post self _ (world st)) as [[response|e] w].
  - destruct (status_code response =? 200)%Z.
    + destruct (completion_text response) as [a|e]; rewrite H.
      * intros [= _ <-]. count_posts.
      * intros Hl. apply logged_post_calls in Hl. rewrite Hl. count_posts.
    + rewrite H. intros [= _ <-]. count_posts.
  - rewrite H. intros Hl. apply logged_post_calls in Hl. rewrite Hl. count_posts.
Qed.

(** What leaves [_call_openrouter] by an exception is the encoding error of
    the handler's [print], whose own text is printable. *)
Lemma call_openrouter_raises prompt (st st2 : PyState W) e :
  _call_openrouter cfg self prompt st = (Raise e, st2) ->
  exc_class e = UnicodeEncodeError /\ encodable (exc_str e) = true.
Proof.
  pose proof (call_openrouter_cases prompt st) as H. cbv zeta in H.
  destruct (requests_post self _ (world st)) as [[response|e0] w].
  - destruct (status_code response =? 200)%Z.
    + destruct (completion_text response) as [a|e0]; rewrite H; [discriminate|].
      intros Hl. by apply logged_raises in Hl as (_ & _ & ? & ?).
    + rewrite H. discriminate.
  - rewrite H. intros Hl. by apply logged_raises in Hl as (_ & _ & ? & ?).
Qed.

(** The [try] block of [process_message], by what retrieval and generation
    gave. *)
Lemma process_message_body_cases user_message (st : PyState W) :
  match search_knowledge self user_message 4 st with
  | (Raise e, st1) =>
    process_message_body cfg self user_message st = (Raise e, st1)
  | (Return [], st1) =>
    process_message_body cfg self user_message st = (Return NO_KNOWLEDGE_REPLY, st1)
  | (Return documents, st1) =>
    match _call_openrouter cfg self (prompt_of user_message documents) st1 with
    | (Return a, st2) =>
      process_message_body cfg self user_message st
      = (Return (answer_reply (kept_answer a) documents), st2)
    | (Raise e, st2) =>
      process_message_body cfg self user_message st = (Raise e, st2)
    end
  end.
Proof.
  unfold process_message_body, generate_response, prompt_of, kept_answer.
  unfold mbind, M_bind, mret, M_ret.
  destruct (search_knowledge self user_message 4 st) as [[[|d documents]|e] st1];
    [done| |done].
  cbv beta iota delta [list_truthy negb].
  by destruct (_call_openrouter cfg self _ st1) as [[a|e] st2].
Qed.

(** [process_message], by what retrieval and generation gave: an exception
    of retrieval is logged by the handler, and so is the encoding error
    that left [_call_openrouter]. *)
Lemma process_message_cases user_message (st : PyState W) :
  match search_knowledge self user_message 4 st with
  | (Raise e, st1) =>
    process_message cfg self user_message st
    = logged st1 (utf8 "RAG Error: " ++ exc_str e) PIPELINE_ERROR_REPLY
  | (Return [], st1) =>
    process_message cfg self user_message st = (Return NO_KNOWLEDGE_REPLY, st1)
  | (Return documents, st1) =>
    match _call_openrouter cfg self (prompt_of user_message documents) st1 with
    | (Return a, st2) =>
      process_message cfg self user_message st
      = (Return (answer_reply (kept_answer a) documents), st2)
    | (Raise e, st2) =>
      process_message cfg self user_message st
      = (Return PIPELINE_ERROR_REPLY, after_print st2 (utf8 "RAG Error: " ++ exc_str e))
    end
  end.
Proof.
  pose proof (process_message_body_cases user_message st) as H.
  unfold process_message, try_except.
  destruct (search_knowledge self user_message 4 st) as [[[|d documents]|e] st1].
  - by rewrite H.
  - destruct (_call_openrouter cfg self _ st1) as [[a|e] st2] eqn:Hc; rewrite H;
      [reflexivity|].
    apply call_openrouter_raises in Hc as (_ & He).
    rewrite print_then_return. apply logged_encodable.
    by rewrite encodable_RAG_Error.
  - rewrite H. apply print_then_return.
Qed.

(** What [_call_openrouter] can return: one of two fixed texts, or the
    stripped content of a 200 answer. *)
Lemma call_openrouter_answer prompt (st st2 : PyState W) a :
  _call_openrouter cfg self prompt st = (Return a, st2) ->
  a = LLM_ERROR_TEXT \/ a = OPENROUTER_ERROR_TEXT
  \/ exists response w,
       requests_post self (openrouter_request cfg prompt) (world st)
       = (Return response, w)
       /\ status_code response = 200%Z
       /\ completion_text response = Return a.
Proof.
  pose proof (call_openrouter_cases prompt st) as H. cbv zeta in H.
  destruct (requests_post self _ (world st)) as [[response|e] w].
  - destruct (status_code response =? 200)%Z eqn:Hs.
    + destruct (completion_text response) as [a'|e] eqn:Hc; rewrite H.
      * intros [= <- _]. right; right. exists response, w. by apply Z.eqb_eq in Hs.
      * intros Hl. apply logged_returns in Hl as (_ & -> & _). by left.
    + rewrite H. intros [= <- _]. by right; left.
  - rewrite H. intros Hl. apply logged_returns in Hl as (_ & -> & _). by left.
Qed.

(** With fixed-output services, what a step returns or raises does not
    depend on the state it starts from. *)
Lemma search_knowledge_fixed query top_k (st st' : PyState W) :
  fixed_output self ->
  (search_knowledge self query top_k st).1 = (search_knowledge self query top_k st').1.
Proof.
  intros (Henc & Hqry & _).
  pose proof (search_knowledge_cases query top_k st) as H.
  pose proof (search_knowledge_cases query top_k st') as H'.
  specialize (Henc query (world st) (world st')).
  destruct (embedder_encode self query (world st)) as [r w1],
           (embedder_encode self query (world st')) as [r' w1'].
  simpl in Henc. subst r'. destruct r as [v|e]; [|by rewrite H, H'].
  simpl in H, H'. specialize (Hqry v top_k true w1 w1').
  destruct (index_query self v top_k true w1) as [r w2],
           (index_query self v top_k true w1') as [r' w2'].
  simpl in Hqry. subst r'. destruct r as [results|e]; by rewrite H, H'.
Qed.

Lemma call_openrouter_fixed prompt (st st' : PyState W) :
  fixed_output self ->
  (_call_openrouter cfg self prompt st).1 = (_call_openrouter cfg self prompt st').1.
Proof.
  intros (_ & _ & Hpost).
  pose proof (call_openrouter_cases prompt st) as H.
  pose proof (call_openrouter_cases prompt st') as H'.
  cbv zeta in H, H'.
  specialize (Hpost (openrouter_request cfg prompt) (world st) (world st')).
  destruct (requests_post self _ (world st)) as [r w],
           (requests_post self _ (world st')) as [r' w'].
  simpl in Hpost. subst r'.
  destruct r as [response|e]; [|rewrite H, H'; apply logged_fixed].
  destruct (status_code response =? 200)%Z; [|by rewrite H, H'].
  destruct (completion_text response); rewrite H, H'; [reflexivity|apply logged_fixed].
Qed.

Lemma process_message_fixed user_message (st st' : PyState W) :
  fixed_output self ->
  (process_message cfg self user_message st).1
  = (process_message cfg self user_message st').1.
Proof.
  intros Hfix.
  pose proof (process_message_cases user_message st) as H.
  pose proof (process_message_cases user_message st') as H'.
  pose proof (search_knowledge_fixed user_message 4 st st' Hfix) as Hs.
  destruct (search_knowledge self user_message 4 st) as [r st1],
           (search_knowledge self user_message 4 st') as [r' st1'].
  simpl in Hs. subst r'.
  destruct r as [[|d documents]|e];
    [by rewrite H, H'| |rewrite H, H'; apply logged_fixed].
  pose proof (call_openrouter_fixed (prompt_of user_message (d :: documents)) st1 st1' Hfix)
    as Hc.
  destruct (_call_openrouter cfg self _ st1) as [r st2],
           (_call_openrouter cfg self _ st1') as [r' st2'].
  simpl in Hc. subst r'. destruct r as [a|e]; by rewrite H, H'.
Qed.

End Steps.


(** ** [validate_config], by the list of missing variables *)

Lemma validate_config_missing cls :
  validate_config cls =
  match missing_secrets cls with
  | [] => Return true
  | _ :: _ =>
    Raise (mkException ValueError
             (utf8 "Missing environment variables: "
              ++ join (utf8 ", ") (missing_secrets cls)))
  end.
Proof.
  unfold validate_config, missing_secrets, required_secrets.
  cbn [List.filter snd].
  destruct (truthy (PINECONE_API_KEY cls)), (truthy (OPENROUTER_API_KEY cls)),
    (truthy (LINE_CHANNEL_ACCESS_TOKEN cls)), (truthy (LINE_CHANNEL_SECRET cls));
    vm_compute; reflexivity.
Qed.

Lemma missing_secrets_In cls name :
  In name (missing_secrets cls)
  <-> exists get, In (name, get) required_secrets /\ truthy (get cls) = false.
Proof.
  unfold missing_secrets. rewrite in_map_iff. split.
  - intros ([n get] & <- & H). apply List.filter_In in H as [H1 H2].
    exists get. split; [done|]. by apply negb_true_iff in H2.
  - intros (get & H1 & H2). exists (name, get). split; [done|].
    apply List.filter_In. split; [done|]. simpl. by rewrite H2.
Qed.

Lemma join_contains sep (l : list str) x : In x l -> contains (join sep l) x.
Proof.
  induction l as [|y l IH]; [done|]. intros [->|H].
  - destruct l as [|z l].
    + exists [], []. simpl. by rewrite app_nil_r.
    + exists [], (sep ++ join sep (z :: l)). reflexivity.
  - destruct (IH H) as (pre & post & Heq). destruct l as [|z l]; [done|].
    exists (y ++ sep ++ pre), post.
    change (join sep (y :: z :: l)) with (y ++ sep ++ join sep (z :: l)).
    rewrite Heq. by rewrite <- !app_assoc.
Qed.

Lemma truthy_false v : truthy v = false <-> v = None \/ v = Some [].
Proof.
  destruct v as [[|c s]|]; simpl; split; try done; try by auto.
  - by intros [|].
Qed.

(** ** The test doubles, run *)

Example bot_answering_run :
  (process_message cfg0 bot_answering latte_query st0).1
  = Return (answer_reply (utf8 "ลาเต้ 45 บาทค่ะ ☕") [{| title := utf8 "เมนูลาเต้";
                                                      content := utf8 "45 บาท";
                                                      doc_score := 0.75%float |}]).
Proof. vm_compute. reflexivity. Qed.

Example bot_no_match_run :
  process_message cfg0 bot_no_match latte_query st0
  = (Return NO_KNOWLEDGE_REPLY,
     {| world := 2; trace := [EvEncode latte_query; EvQuery vec0 4 true] |}).
Proof. vm_compute. reflexivity. Qed.

Example bot_index_down_run :
  process_message cfg0 bot_index_down latte_query st0
  = (Return PIPELINE_ERROR_REPLY,
     {| world := 2;
        trace := [EvEncode latte_query; EvQuery vec0 4 true;
                  EvPrint (utf8 "RAG Error: (401) Unauthorized")] |}).
Proof. vm_compute. reflexivity. Qed.

Example bot_llm_timeout_run :
  (process_message cfg0 bot_llm_timeout latte_query st0).1
  = Return (answer_reply LLM_ERROR_TEXT [{| title := utf8 "เมนูลาเต้";
                                           content := utf8 "45 บาท";
                                           doc_score := 0.75%float |}]).
Proof. vm_compute. reflexivity. Qed.

Example bot_llm_500_run :
  (process_message cfg0 bot_llm_500 latte_query st0).1
  = Return (answer_reply OPENROUTER_ERROR_TEXT [{| title := utf8 "เมนูลาเต้";
                                                  content := utf8 "45 บาท";
                                                  doc_score := 0.75%float |}]).
Proof. vm_compute. reflexivity. Qed.

Example bot_llm_blank_run :
  (process_message cfg0 bot_llm_blank latte_query st0).1
  = Return (answer_reply EMPTY_GENERATION_TEXT [{| title := utf8 "เมนูลาเต้";
                                                  content := utf8 "45 บาท";
                                                  doc_score := 0.75%float |}]).
Proof. vm_compute. reflexivity. Qed.

(** End-to-end scenario A of the specification: the price of the retrieved
    document reaches the reply. *)
Example bot_answering_mentions_price :
  exists reply st' t,
    process_message cfg0 bot_answering latte_query st0 = (Return reply, st')
    /\ reply_text reply = Some t
    /\ contains t (utf8 "45").
Proof.
  eexists _, _, _. split; [vm_compute; reflexivity|]. split; [vm_compute; reflexivity|].
  exists (utf8 "ลาเต้ "), (utf8 " บาทค่ะ ☕"). vm_compute. reflexivity.
Qed.

(** On the test doubles that do not answer, nothing counts as generated. *)
Lemma no_grounded_answer_without_completion (self : Services nat) t :
  self = bot_no_match \/ self = bot_index_down
  \/ self = bot_llm_timeout \/ self = bot_llm_500 ->
  ~ grounded_answer cfg0 self latte_query st0 t.
Proof.
  intros Hself (documents & st1 & response & w' & Hs & Hne & Hp & Hst & _).
  destruct Hself as [->|[->|[->| ->]]]; vm_compute in Hs;
    injection Hs as <- <- || discriminate Hs; try done.
  cbv [bot_llm_500 stub requests_post] in Hp. injection Hp as <- _.
  discriminate Hst.
Qed.

Example bot_three_documents_run :
  (process_message cfg0 bot_three_documents latte_query st0).1
  = Return (answer_reply (utf8 "ลาเต้ 45 บาทค่ะ ☕")
              [latte_document; hours_document; parking_document]).
Proof. vm_compute. reflexivity. Qed.

Example bot_three_documents_search :
  search_knowledge bot_three_documents latte_query 4 st0
  = (Return [latte_document; hours_document; parking_document], st_retrieved).
Proof. vm_compute. reflexivity. Qed.

Example bot_llm_blank_search :
  search_knowledge bot_llm_blank latte_query 4 st0
  = (Return [latte_document], st_retrieved).
Proof. vm_compute. reflexivity. Qed.

Example bot_llm_timeout_search :
  search_knowledge bot_llm_timeout latte_query 4 st0
  = (Return [latte_document], st_retrieved).
Proof. vm_compute. reflexivity. Qed.

Example bot_llm_blank_generate :
  (generate_response cfg0 bot_llm_blank latte_query [latte_document] st_retrieved).1
  = Return [].
Proof. vm_compute. reflexivity. Qed.

Lemma kept_answer_fixed :
  kept_answer LLM_ERROR_TEXT = LLM_ERROR_TEXT
  /\ kept_answer OPENROUTER_ERROR_TEXT = OPENROUTER_ERROR_TEXT.
Proof. split; vm_compute; reflexivity. Qed.

Lemma fallback_replies_no_sources :
  sources NO_KNOWLEDGE_REPLY = None /\ sources PIPELINE_ERROR_REPLY = None.
Proof. split; vm_compute; reflexivity. Qed.

Lemma stub_fixed_output enc qr resp : fixed_output (stub enc qr resp).
Proof. repeat split. Qed.

Lemma required_secrets_getenv environ name get :
  In (name, get) required_secrets -> get (load_Config environ) = getenv environ name.
Proof.
  unfold required_secrets. cbn [In].
  intros [H|[H|[H|[H|[]]]]]; injection H as <- <-; reflexivity.
Qed.

Lemma contains_app_r (pre s x : str) : contains s x -> contains (pre ++ s) x.
Proof.
  intros (p & q & ->). exists (pre ++ p), q. by rewrite <- app_assoc.
Qed.

(** Four different values do not fit in a list of three. *)
Lemma four_not_in_three {A} (a1 a2 a3 a4 t1 t2 t3 : A) :
  NoDup [a1; a2; a3; a4] ->
  In a1 [t1; t2; t3] -> In a2 [t1; t2; t3] ->
  In a3 [t1; t2; t3] -> In a4 [t1; t2; t3] -> False.
Proof.
  intros Hnd H1 H2 H3 H4. apply NoDup_ListNoDup in Hnd.
  inversion Hnd as [|? ? Hn1 Hnd1]; subst.
  inversion Hnd1 as [|? ? Hn2 Hnd2]; subst.
  inversion Hnd2 as [|? ? Hn3 _]; subst.
  simpl in *. intuition congruence.
Qed.

(** On a test double that generates nothing, a reply covered by a list of
    texts and generated answers has its text in the list. *)
Lemma covered_text_in_list (self : Services nat) r a (l : list str) :
  (process_message cfg0 self latte_query st0).1 = Return r ->
  reply_text r = Some a ->
  (forall t, ~ grounded_answer cfg0 self latte_query st0 t) ->
  (forall reply st',
      process_message cfg0 self latte_query st0 = (Return reply, st') ->
      exists t,
        reply_text reply = Some t
        /\ (In t l \/ grounded_answer cfg0 self latte_query st0 t)) ->
  In a l.
Proof.
  intros Hrun Hr Hng Hcover.
  destruct (process_message cfg0 self latte_query st0) as [o st'] eqn:Hpm.
  cbn [fst] in Hrun. subst o.
  destruct (Hcover r st' eq_refl) as (t & Ht & [Hin|Hg]); [|destruct (Hng t Hg)].
  rewrite Hr in Ht. injection Ht as <-. exact Hin.
Qed.

(* ===================================================================== *)
(** * The pipeline contract *)
(* ===================================================================== *)


(** C2. When the index query returns no match, [process_message] returns
    exactly the NO_KNOWLEDGE reply: the fixed text and a set of two quick
    replies; the only calls made are the embedding and the query, so the
    completion endpoint is not called. *)
Theorem empty_retrieval_gives_no_knowledge {W} (cfg : Config) (self : Services W)
    (user_message : str) (st : PyState W) v w1 results w2 :
  embedder_encode self user_message (world st) = (Return v, w1) ->
  index_query self v 4 true w1 = (Return results, w2) ->
  matches results = [] ->
  exists reply st' q,
    process_message cfg self user_message st = (Return reply, st')
    /\ reply = NO_KNOWLEDGE_REPLY
    /\ reply_text reply = Some NO_KNOWLEDGE_TEXT
    /\ quick_replies reply = Some q /\ length q = 2
    /\ trace st' = trace st ++ [EvEncode user_message; EvQuery v 4 true]
    /\ post_calls (trace st') = post_calls (trace st).
Proof.
  intros Henc Hqry Hm.
  destruct fallback_replies_values as (Ht & Hq & _).
  pose proof (process_message_cases cfg self user_message st) as H.
  pose proof (search_knowledge_cases self user_message 4 st) as Hs.
  rewrite Henc in Hs. simpl in Hs. rewrite Hqry, Hm in Hs. simpl in Hs.
  rewrite Hs in H. exists NO_KNOWLEDGE_REPLY. eexists _, _.
  split; [exact H|]. split; [done|]. split; [done|]. split; [exact Hq|].
  split; [done|]. simpl. rewrite <- app_assoc. split; [done|].
  rewrite post_calls_app. unfold post_calls at 2. simpl. lia.
Qed.

Lemma empty_retrieval_gives_no_knowledge_witness :
  exists reply st' q,
    process_message cfg0 bot_no_match latte_query st0 = (Return reply, st')
    /\ reply = NO_KNOWLEDGE_REPLY
    /\ reply_text reply = Some NO_KNOWLEDGE_TEXT
    /\ quick_replies reply = Some q /\ length q = 2
    /\ trace st' = trace st0 ++ [EvEncode latte_query; EvQuery vec0 4 true]
    /\ post_calls (trace st') = post_calls (trace st0).
Proof.
  exact (empty_retrieval_gives_no_knowledge cfg0 bot_no_match latte_query st0
           vec0 1 {| matches := [] |} 2 eq_refl eq_refl eq_refl).
Defined.

(** C3, as the code has it. When the index query raises, nothing in
    [search_knowledge] handles the exception: it reaches the handler of
    [process_message], which logs it; for an exception whose text can be
    printed the reply is the PIPELINE_ERROR reply, which is not the
    NO_KNOWLEDGE reply; the completion endpoint is not called. *)
Theorem retrieval_error_gives_pipeline_error {W} (cfg : Config) (self : Services W)
    (user_message : str) (st : PyState W) v w1 e w2 :
  embedder_encode self user_message (world st) = (Return v, w1) ->
  index_query self v 4 true w1 = (Raise e, w2) ->
  encodable (exc_str e) = true ->
  exists reply st',
    process_message cfg self user_message st = (Return reply, st')
    /\ reply = PIPELINE_ERROR_REPLY
    /\ reply_text reply = Some PIPELINE_ERROR_TEXT
    /\ reply_text reply <> Some NO_KNOWLEDGE_TEXT
    /\ trace st' = trace st ++ [EvEncode user_message; EvQuery v 4 true;
                                EvPrint (utf8 "RAG Error: " ++ exc_str e)]
    /\ post_calls (trace st') = post_calls (trace st).
Proof.
  intros Henc Hqry Hprintable.
  pose proof (process_message_cases cfg self user_message st) as H.
  pose proof (search_knowledge_cases self user_message 4 st) as Hs.
  rewrite Henc in Hs. simpl in Hs. rewrite Hqry in Hs.
  rewrite Hs in H.
  rewrite logged_encodable in H by (by rewrite encodable_RAG_Error).
  exists PIPELINE_ERROR_REPLY. eexists.
  split; [exact H|]. split; [done|]. split; [by vm_compute|].
  split; [by vm_compute|]. simpl. rewrite <- !app_assoc. split; [done|].
  rewrite post_calls_app. unfold post_calls at 2. simpl. lia.
Qed.

Lemma retrieval_error_gives_pipeline_error_witness :
  exists reply st',
    process_message cfg0 bot_index_down latte_query st0 = (Return reply, st')
    /\ reply = PIPELINE_ERROR_REPLY
    /\ reply_text reply = Some PIPELINE_ERROR_TEXT
    /\ reply_text reply <> Some NO_KNOWLEDGE_TEXT
    /\ trace st' = trace st0 ++ [EvEncode latte_query; EvQuery vec0 4 true;
                                 EvPrint (utf8 "RAG Error: " ++ exc_str index_error)]
    /\ post_calls (trace st') = post_calls (trace st0).
Proof.
  exact (retrieval_error_gives_pipeline_error cfg0 bot_index_down latte_query st0
           vec0 1 index_error 2 eq_refl eq_refl ltac:(vm_compute; reflexivity)).
Defined.

(** C3, as the specification states it, fails: with an index whose query
    raises, the reply is not the NO_KNOWLEDGE reply. *)
Lemma retrieval_error_is_not_no_knowledge :
  embedder_encode bot_index_down latte_query (world st0) = (Return vec0, 1)
  /\ index_query bot_index_down vec0 4 true 1 = (Raise index_error, 2)
  /\ (process_message cfg0 bot_index_down latte_query st0).1
     = Return PIPELINE_ERROR_REPLY
  /\ (process_message cfg0 bot_index_down latte_query st0).1
     <> Return NO_KNOWLEDGE_REPLY.
Proof.
  split; [reflexivity|]. split; [reflexivity|]. rewrite bot_index_down_run.
  split; [reflexivity|]. simpl. intros H.
  assert (E : reply_text PIPELINE_ERROR_REPLY = reply_text NO_KNOWLEDGE_REPLY)
    by congruence.
  vm_compute in E. discriminate E.
Qed.

(** C4, as the code has it. The text of every reply [process_message]
    returns is a generated answer (the stripped, non-blank content of a 200
    answer of the completion endpoint for the prompt built from the
    retrieved documents) or one of the four fixed Thai apology texts of
    [app.py]; the text of an exception is printed to the log and never put
    in the reply. *)
Theorem reply_is_generated_or_fixed_apology {W} (cfg : Config) (self : Services W)
    (user_message : str) (st : PyState W) reply st' :
  process_message cfg self user_message st = (Return reply, st') ->
  exists t,
    reply_text reply = Some t
    /\ (In t apology_texts \/ grounded_answer cfg self user_message st t).
Proof.
  intros Hpm.
  destruct fallback_replies_values as (Hnk & _ & _ & _ & Hpe & _).
  pose proof (process_message_cases cfg self user_message st) as H.
  destruct (search_knowledge self user_message 4 st) as [[[|d documents]|e] st1] eqn:Hs.
  - rewrite H in Hpm. injection Hpm as <- <-. exists NO_KNOWLEDGE_TEXT.
    split; [exact Hnk|]. left. exact in_apology_no_knowledge.
  - destruct (_call_openrouter cfg self (prompt_of user_message (d :: documents)) st1)
      as [[a|e] st2] eqn:Ha; rewrite H in Hpm; injection Hpm as <- <-.
    + exists (kept_answer a). split; [apply answer_reply_text|].
      pose proof (call_openrouter_answer cfg self _ st1 st2 a Ha) as Hcases.
      unfold kept_answer. destruct (strip a) eqn:Hstrip; cbn [negb str_truthy].
      { left. exact in_apology_llm_error. }
      destruct Hcases as [->|[->|(response & w & Hp & Hst & Hc)]].
      * left. exact in_apology_llm_error.
      * left. exact in_apology_openrouter_error.
      * right. exists (d :: documents), st1, response, w.
        split; [exact Hs|]. split; [discriminate|]. split; [exact Hp|].
        split; [exact Hst|]. split; [exact Hc|]. intros ->. cbv in Hstrip.
        discriminate Hstrip.
    + exists PIPELINE_ERROR_TEXT. split; [exact Hpe|]. left.
      exact in_apology_pipeline_error.
  - rewrite H in Hpm. apply logged_returns in Hpm as (_ & -> & _).
    exists PIPELINE_ERROR_TEXT. split; [exact Hpe|]. left.
    exact in_apology_pipeline_error.
Qed.

Lemma reply_is_generated_or_fixed_apology_witness :
  exists t,
    reply_text (answer_reply (utf8 "ลาเต้ 45 บาทค่ะ ☕") [latte_document]) = Some t
    /\ (In t apology_texts \/ grounded_answer cfg0 bot_answering latte_query st0 t).
Proof.
  apply (reply_is_generated_or_fixed_apology cfg0 bot_answering latte_query st0
           (answer_reply (utf8 "ลาเต้ 45 บาทค่ะ ☕") [latte_document])
           (process_message cfg0 bot_answering latte_query st0).2).
  vm_compute. reflexivity.
Defined.

(** C4, as the specification states it, fails: no three texts cover the
    replies that are not generated answers. Four test doubles that never
    produce a completion answer return four different fixed texts. *)
Lemma three_apology_texts_do_not_cover :
  ~ exists t1 t2 t3 : str,
      forall (self : Services nat) reply st',
        process_message cfg0 self latte_query st0 = (Return reply, st') ->
        exists t,
          reply_text reply = Some t
          /\ (In t [t1; t2; t3] \/ grounded_answer cfg0 self latte_query st0 t).
Proof.
  intros (t1 & t2 & t3 & H).
  destruct fallback_replies_values as (Hnk & _ & _ & _ & Hpe & _).
  apply (four_not_in_three NO_KNOWLEDGE_TEXT PIPELINE_ERROR_TEXT
           OPENROUTER_ERROR_TEXT LLM_ERROR_TEXT t1 t2 t3 apology_texts_NoDup).
  - apply (covered_text_in_list bot_no_match NO_KNOWLEDGE_REPLY);
      [rewrite bot_no_match_run; reflexivity | exact Hnk | | apply H].
    intros t. apply no_grounded_answer_without_completion. left. reflexivity.
  - apply (covered_text_in_list bot_index_down PIPELINE_ERROR_REPLY);
      [rewrite bot_index_down_run; reflexivity | exact Hpe | | apply H].
    intros t. apply no_grounded_answer_without_completion. right. left. reflexivity.
  - apply (covered_text_in_list bot_llm_500 _ _ _ bot_llm_500_run);
      [apply answer_reply_text | | apply H].
    intros t. apply no_grounded_answer_without_completion.
    right. right. right. reflexivity.
  - apply (covered_text_in_list bot_llm_timeout _ _ _ bot_llm_timeout_run);
      [apply answer_reply_text | | apply H].
    intros t. apply no_grounded_answer_without_completion.
    right. right. left. reflexivity.
Qed.


(** C6. For every query string (empty or not), the reply [process_message]
    returns has a text that is not empty; and when the generator returns a
    blank string (empty, or white space only), the text of the reply is the
    fixed EmptyGeneration apology. *)
Theorem reply_text_never_empty {W} (cfg : Config) (self : Services W)
    (user_message : str) (st : PyState W) reply st' :
  process_message cfg self user_message st = (Return reply, st') ->
  exists t,
    reply_text reply = Some t
    /\ t <> []
    /\ forall documents st1 a,
         search_knowledge self user_message 4 st = (Return documents, st1) ->
         documents <> [] ->
         (generate_response cfg self user_message documents st1).1 = Return a ->
         blank a = true ->
         t = EMPTY_GENERATION_TEXT.
Proof.
  intros Hpm.
  destruct fallback_replies_values as (Hnk & _ & _ & _ & Hpe & _).
  pose proof (process_message_cases cfg self user_message st) as H.
  destruct (search_knowledge self user_message 4 st) as [[[|d documents]|e] st1].
  - rewrite H in Hpm. injection Hpm as <- <-. exists NO_KNOWLEDGE_TEXT.
    split; [exact Hnk|].
    split; [exact (apology_texts_nonempty _ in_apology_no_knowledge)|].
    intros documents' st1' a [= <- <-] Hne. by destruct Hne.
  - destruct (_call_openrouter cfg self (prompt_of user_message (d :: documents)) st1)
      as [[a|e] st2] eqn:Ha; rewrite H in Hpm; injection Hpm as <- <-.
    + exists (kept_answer a). split; [apply answer_reply_text|].
      split; [apply kept_answer_nonempty|].
      intros documents' st1' a' [= <- <-] _ Hg Hblank.
      unfold generate_response in Hg. fold (prompt_of user_message (d :: documents)) in Hg.
      rewrite Ha in Hg. cbn [fst] in Hg. injection Hg as <-.
      by apply kept_answer_blank.
    + exists PIPELINE_ERROR_TEXT. split; [exact Hpe|].
      split; [exact (apology_texts_nonempty _ in_apology_pipeline_error)|].
      intros documents' st1' a' [= <- <-] _ Hg Hblank.
      unfold generate_response in Hg. fold (prompt_of user_message (d :: documents)) in Hg.
      rewrite Ha in Hg. discriminate Hg.
  - rewrite H in Hpm. apply logged_returns in Hpm as (_ & -> & _).
    exists PIPELINE_ERROR_TEXT. split; [exact Hpe|].
    split; [exact (apology_texts_nonempty _ in_apology_pipeline_error)|].
    intros documents' st1' a Hs. discriminate Hs.
Qed.

Lemma reply_text_never_empty_witness :
  reply_text (answer_reply EMPTY_GENERATION_TEXT [latte_document])
  = Some EMPTY_GENERATION_TEXT
  /\ EMPTY_GENERATION_TEXT <> [].
Proof.
  destruct (reply_text_never_empty cfg0 bot_llm_blank latte_query st0
              (answer_reply EMPTY_GENERATION_TEXT [latte_document])
              (process_message cfg0 bot_llm_blank latte_query st0).2
              ltac:(vm_compute; reflexivity))
    as (t & Ht & Hne & Hblank).
  rewrite (Hblank [latte_document] st_retrieved [] bot_llm_blank_search
             ltac:(discriminate) bot_llm_blank_generate eq_refl) in Ht, Hne.
  split; [exact Ht|exact Hne].
Defined.

(** C7. Whenever the reply of [process_message] has sources, that is on the
    path through generation, they are the titles of the first two retrieved
    documents, so at most two, however many documents were retrieved. *)
Theorem sources_are_first_two_titles {W} (cfg : Config) (self : Services W)
    (user_message : str) (st : PyState W) reply s :
  (process_message cfg self user_message st).1 = Return reply ->
  sources reply = Some s ->
  length s <= 2
  /\ exists documents st1,
       search_knowledge self user_message 4 st = (Return documents, st1)
       /\ documents <> []
       /\ s = map title (take 2 documents).
Proof.
  intros Hpm Hsrc.
  destruct fallback_replies_no_sources as (Hnk & Hpe).
  pose proof (process_message_cases cfg self user_message st) as H.
  destruct (search_knowledge self user_message 4 st) as [[[|d documents]|e] st1].
  - rewrite H in Hpm. cbn [fst] in Hpm. injection Hpm as <-. congruence.
  - destruct (_call_openrouter cfg self (prompt_of user_message (d :: documents)) st1)
      as [[a|e] st2]; rewrite H in Hpm; cbn [fst] in Hpm; injection Hpm as <-;
      [|congruence].
    rewrite answer_reply_sources in Hsrc. injection Hsrc as <-.
    split; [exact (first_two_titles_length (d :: documents))|].
    exists (d :: documents), st1. split; [reflexivity|]. split; [discriminate|reflexivity].
  - rewrite H in Hpm. unfold logged in Hpm.
    destruct (stdout_encode (utf8 "RAG Error: " ++ exc_str e)) as [[]|e'];
      cbn [fst] in Hpm; [injection Hpm as <-; congruence | discriminate Hpm].
Qed.

Lemma sources_are_first_two_titles_witness :
  length [utf8 "เมนูลาเต้"; utf8 "เวลาเปิด-ปิด"] <= 2
  /\ exists documents st1,
       search_knowledge bot_three_documents latte_query 4 st0 = (Return documents, st1)
       /\ documents <> []
       /\ [utf8 "เมนูลาเต้"; utf8 "เวลาเปิด-ปิด"] = map title (take 2 documents).
Proof.
  exact (sources_are_first_two_titles cfg0 bot_three_documents latte_query st0
           _ _ bot_three_documents_run (answer_reply_sources _ _)).
Defined.

(** C8, as the code has it. [validate_config] raises exactly when one of
    the four required variables is not set or is set to the empty string;
    the error is a [ValueError] whose message names every such variable; and
    the program then stops at line 18 of [app.py], before the bot is built
    and before [app.run] or [test_rag], whatever the arguments of the
    command line: nothing at all has been done. *)
Theorem validate_config_fails_iff_missing {W} (self : Services W)
    (environ : gmap str str) (st : PyState W) :
  ((exists e, validate_config (load_Config environ) = Raise e)
   <-> exists name,
         In name (map fst required_secrets)
         /\ (getenv environ name = None \/ getenv environ name = Some []))
  /\ forall e,
       validate_config (load_Config environ) = Raise e ->
       exc_class e = ValueError
       /\ (forall name,
             In name (map fst required_secrets) ->
             getenv environ name = None \/ getenv environ name = Some [] ->
             contains (exc_str e) name)
       /\ forall repr_list argv,
            app_main repr_list self argv environ st = (Raise e, st).
Proof.
  pose proof (validate_config_missing (load_Config environ)) as Hv.
  assert (Hmiss : forall name,
             In name (missing_secrets (load_Config environ))
             <-> In name (map fst required_secrets)
                 /\ (getenv environ name = None \/ getenv environ name = Some [])).
  { intros name. rewrite missing_secrets_In. split.
    - intros (get & Hin & Ht).
      rewrite (required_secrets_getenv environ name get Hin) in Ht.
      split; [|by apply truthy_false].
      apply in_map_iff. by exists (name, get).
    - intros (Hin & Ht). apply in_map_iff in Hin as ([n get] & Hn & Hin).
      cbn [fst] in Hn. subst n. exists get. split; [exact Hin|].
      rewrite (required_secrets_getenv environ name get Hin). by apply truthy_false. }
  split.
  - split.
    + intros (e & He). rewrite He in Hv.
      destruct (missing_secrets (load_Config environ)) as [|name l] eqn:Hm;
        [discriminate Hv|].
      exists name. apply Hmiss. left. reflexivity.
    + intros (name & Hname). apply Hmiss in Hname.
      destruct (missing_secrets (load_Config environ)) as [|n l];
        [destruct Hname|]. eexists. exact Hv.
  - intros e He. rewrite He in Hv.
    destruct (missing_secrets (load_Config environ)) as [|n l] eqn:Hm;
      [discriminate Hv|].
    injection Hv as ->. split; [reflexivity|]. split.
    + intros name Hin Ht. cbn [exc_str]. apply contains_app_r.
      apply (join_contains (utf8 ", ") (n :: l)). apply Hmiss. by split.
    + intros repr_list argv.
      unfold app_main, app_import, mbind, M_bind, lift. by rewrite He.
Qed.

Lemma validate_config_fails_iff_missing_witness :
  exists e,
    validate_config (load_Config environ_two_unset) = Raise e
    /\ exc_class e = ValueError
    /\ contains (exc_str e) (utf8 "OPENROUTER_API_KEY")
    /\ contains (exc_str e) (utf8 "LINE_CHANNEL_SECRET")
    /\ app_main (fun _ => []) bot_no_match [utf8 "app.py"] environ_two_unset st0
       = (Raise e, st0).
Proof.
  destruct (validate_config_fails_iff_missing bot_no_match environ_two_unset st0)
    as (Hiff & Hmsg).
  destruct (proj2 Hiff) as (e & He).
  { exists (utf8 "OPENROUTER_API_KEY"). split; [right; left; reflexivity|].
    left. vm_compute. reflexivity. }
  destruct (Hmsg e He) as (Hc & Hn & Hmain).
  exists e. split; [exact He|]. split; [exact Hc|].
  split; [|split; [|exact (Hmain (fun _ => []) [utf8 "app.py"])]].
  - apply Hn; [right; left; reflexivity|]. left. vm_compute. reflexivity.
  - apply Hn; [right; right; right; left; reflexivity|]. left. vm_compute. reflexivity.
Defined.

(** C8, as the specification states it, fails in one direction: with the
    four variables present, one of them empty, validation still raises. *)
Lemma empty_secret_fails_validation :
  (forall name, In name (map fst required_secrets) ->
                getenv environ_empty_key name <> None)
  /\ validate_config (load_Config environ_empty_key)
     = Raise (mkException ValueError
                (utf8 "Missing environment variables: PINECONE_API_KEY")).
Proof.
  split.
  - unfold required_secrets. cbn [map fst In].
    intros name [<-|[<-|[<-|[<-|[]]]]]; vm_compute; discriminate.
  - vm_compute. reflexivity.
Qed.

(** C9. With services whose answers depend on their arguments only,
    [process_message] returns the same reply for the same message from any
    two states of the world; in particular a second call, made in the state
    the first one left, returns the reply of the first. *)
Theorem process_message_deterministic {W} (cfg : Config) (self : Services W)
    (user_message : str) (st st' : PyState W) :
  fixed_output self ->
  (process_message cfg self user_message st').1
  = (process_message cfg self user_message st).1
  /\ (process_message cfg self user_message
        (process_message cfg self user_message st).2).1
     = (process_message cfg self user_message st).1.
Proof.
  intros Hfix. split; by apply process_message_fixed.
Qed.

Lemma process_message_deterministic_witness :
  (process_message cfg0 bot_answering latte_query st_retrieved).1
  = (process_message cfg0 bot_answering latte_query st0).1
  /\ (process_message cfg0 bot_answering latte_query
        (process_message cfg0 bot_answering latte_query st0).2).1
     = (process_message cfg0 bot_answering latte_query st0).1.
Proof.
  exact (process_message_deterministic cfg0 bot_answering latte_query st0 st_retrieved
           (stub_fixed_output _ _ _)).
Defined.

(** C10. The two fallback replies of [process_message], the NO_KNOWLEDGE
    reply (no document retrieved) and the PIPELINE_ERROR reply (an exception
    caught, of retrieval or of generation), have no [sources] key; the reply
    of the path on which generation returned has one. *)
Theorem only_generated_reply_has_sources {W} (cfg : Config) (self : Services W)
    (user_message : str) (st : PyState W) reply st' :
  process_message cfg self user_message st = (Return reply, st') ->
  match search_knowledge self user_message 4 st with
  | (Raise _, _) => reply = PIPELINE_ERROR_REPLY /\ reply !! k_sources = None
  | (Return [], _) => reply = NO_KNOWLEDGE_REPLY /\ reply !! k_sources = None
  | (Return documents, st1) =>
    match (generate_response cfg self user_message documents st1).1 with
    | Return _ => reply !! k_sources = Some (VList (map title (take 2 documents)))
    | Raise _ => reply = PIPELINE_ERROR_REPLY /\ reply !! k_sources = None
    end
  end.
Proof.
  intros Hpm.
  destruct fallback_replies_values as (_ & _ & Hnk & _ & _ & _ & Hpe & _).
  pose proof (process_message_cases cfg self user_message st) as H.
  destruct (search_knowledge self user_message 4 st) as [[[|d documents]|e] st1].
  - rewrite H in Hpm. injection Hpm as <- <-. split; [reflexivity|exact Hnk].
  - unfold generate_response. fold (prompt_of user_message (d :: documents)).
    destruct (_call_openrouter cfg self (prompt_of user_message (d :: documents)) st1)
      as [[a|e] st2]; rewrite H in Hpm; injection Hpm as <- <-; cbn [fst].
    + apply answer_reply_has_sources.
    + split; [reflexivity|exact Hpe].
  - rewrite H in Hpm. apply logged_returns in Hpm as (_ & -> & _).
    split; [reflexivity|exact Hpe].
Qed.

Lemma only_generated_reply_has_sources_witness :
  match search_knowledge bot_answering latte_query 4 st0 with
  | (Raise _, _) =>
    answer_reply (utf8 "ลาเต้ 45 บาทค่ะ ☕") [latte_document] = PIPELINE_ERROR_REPLY
    /\ answer_reply (utf8 "ลาเต้ 45 บาทค่ะ ☕") [latte_document] !! k_sources = None
  | (Return [], _) =>
    answer_reply (utf8 "ลาเต้ 45 บาทค่ะ ☕") [latte_document] = NO_KNOWLEDGE_REPLY
    /\ answer_reply (utf8 "ลาเต้ 45 บาทค่ะ ☕") [latte_document] !! k_sources = None
  | (Return documents, st1) =>
    match (generate_response cfg0 bot_answering latte_query documents st1).1 with
    | Return _ =>
      answer_reply (utf8 "ลาเต้ 45 บาทค่ะ ☕") [latte_document] !! k_sources
      = Some (VList (map title (take 2 documents)))
    | Raise _ =>
      answer_reply (utf8 "ลาเต้ 45 บาทค่ะ ☕") [latte_document] = PIPELINE_ERROR_REPLY
      /\ answer_reply (utf8 "ลาเต้ 45 บาทค่ะ ☕") [latte_document] !! k_sources = None
    end
  end.
Proof.
  apply (only_generated_reply_has_sources cfg0 bot_answering latte_query st0
           (answer_reply (utf8 "ลาเต้ 45 บาทค่ะ ☕") [latte_document])
           (process_message cfg0 bot_answering latte_query st0).2).
  vm_compute. reflexivity.
Defined.

(* ===================================================================== *)
(** * Further properties of [app.py] *)
(* ===================================================================== *)

(** ** Retrieval *)

Lemma append_documents_all (ms : list Match) (documents : list Document) :
  Forall (fun m => metadata m <> None) ms ->
  exists docs,
    append_documents ms documents = Return (documents ++ docs)
    /\ Forall2 (fun m d => exists md, metadata m = Some md /\ d = document_of m md)
         ms docs.
Proof.
  intros Hall. revert documents.
  induction Hall as [|m ms Hm _ IH]; intros documents.
  - exists []. split; [by rewrite app_nil_r | constructor].
  - destruct (metadata m) as [md|] eqn:Hmd; [|by destruct Hm].
    destruct (IH (documents ++ [document_of m md])) as (docs & Heq & Hdocs).
    exists (document_of m md :: docs). split.
    + cbn [append_documents]. rewrite Hmd. fold (document_of m md).
      rewrite Heq. by rewrite <- app_assoc.
    + constructor; [by exists md | exact Hdocs].
Qed.

Lemma append_documents_missing (ms : list Match) (documents : list Document) :
  Exists (fun m => metadata m = None) ms ->
  exists e,
    append_documents ms documents = Raise e
    /\ exc_class e = AttributeError
    /\ encodable (exc_str e) = true.
Proof.
  intros Hex. revert documents.
  induction ms as [|m ms IH]; intros documents; [by apply Exists_nil in Hex|].
  cbn [append_documents]. destruct (metadata m) as [md|] eqn:Hmd.
  - apply Exists_cons in Hex as [Hm|Hex]; [congruence|]. by apply IH.
  - eexists. split; [reflexivity|]. split; [reflexivity|]. vm_compute; reflexivity.
Qed.

(** X1. When the embedding and the query return and every match carries
    metadata, [search_knowledge] returns one document per match, in the order
    of the matches: title and content are those of the metadata (the empty
    string for a missing key) and the score is the one of the match; the
    [top_k] given is the one passed to the index, with metadata requested. *)
Theorem search_knowledge_returns_one_document_per_match {W} (self : Services W)
    (query : str) (top_k : Z) (st : PyState W) v w1 results w2 :
  embedder_encode self query (world st) = (Return v, w1) ->
  index_query self v top_k true w1 = (Return results, w2) ->
  Forall (fun m => metadata m <> None) (matches results) ->
  exists docs st',
    search_knowledge self query top_k st = (Return docs, st')
    /\ Forall2 (fun m d => exists md, metadata m = Some md /\ d = document_of m md)
         (matches results) docs
    /\ length docs = length (matches results)
    /\ trace st' = trace st ++ [EvEncode query; EvQuery v top_k true].
Proof.
  intros Henc Hqry Hall.
  pose proof (search_knowledge_cases self query top_k st) as H.
  rewrite Henc in H. cbv zeta in H. rewrite Hqry in H.
  destruct (append_documents_all (matches results) [] Hall) as (docs & Heq & Hdocs).
  rewrite Heq in H. exists docs. eexists. split; [exact H|].
  split; [exact Hdocs|]. split; [symmetry; exact (Forall2_length _ _ _ Hdocs)|].
  cbn [after_call trace]. by rewrite <- app_assoc.
Qed.

Lemma search_knowledge_returns_one_document_per_match_witness :
  exists docs st',
    search_knowledge bot_untitled latte_query 4 st0 = (Return docs, st')
    /\ Forall2 (fun m d => exists md, metadata m = Some md /\ d = document_of m md)
         [latte; untitled] docs
    /\ length docs = 2
    /\ trace st' = trace st0 ++ [EvEncode latte_query; EvQuery vec0 4 true].
Proof.
  exact (search_knowledge_returns_one_document_per_match bot_untitled latte_query 4 st0
           vec0 1 {| matches := [latte; untitled] |} 2 eq_refl eq_refl
           ltac:(repeat constructor; discriminate)).
Defined.

(** X2. When a match comes without metadata, the loop of [search_knowledge]
    raises; [process_message] then returns the PIPELINE_ERROR reply, and the
    completion endpoint is not called. *)
Theorem missing_metadata_gives_pipeline_error {W} (cfg : Config) (self : Services W)
    (user_message : str) (st : PyState W) v w1 results w2 :
  embedder_encode self user_message (world st) = (Return v, w1) ->
  index_query self v 4 true w1 = (Return results, w2) ->
  Exists (fun m => metadata m = None) (matches results) ->
  exists e st',
    search_knowledge self user_message 4 st
    = (Raise e, after_call (after_call st (EvEncode user_message) w1)
                  (EvQuery v 4 true) w2)
    /\ exc_class e = AttributeError
    /\ process_message cfg self user_message st = (Return PIPELINE_ERROR_REPLY, st')
    /\ post_calls (trace st') = post_calls (trace st).
Proof.
  intros Henc Hqry Hex.
  pose proof (search_knowledge_cases self user_message 4 st) as Hs.
  rewrite Henc in Hs. cbv zeta in Hs. rewrite Hqry in Hs.
  destruct (append_documents_missing (matches results) [] Hex) as (e & He & Hc & Hp).
  rewrite He in Hs.
  pose proof (process_message_cases cfg self user_message st) as H.
  rewrite Hs in H.
  rewrite logged_encodable in H by (by rewrite encodable_RAG_Error).
  exists e. eexists. split; [exact Hs|]. split; [exact Hc|].
  split; [exact H|].
  cbn [after_print after_call trace]. rewrite !post_calls_app.
  unfold post_calls at 2 3 4. cbn [List.filter is_post length]. lia.
Qed.

Lemma missing_metadata_gives_pipeline_error_witness :
  exists e st',
    search_knowledge bot_bare_match latte_query 4 st0
    = (Raise e, after_call (after_call st0 (EvEncode latte_query) 1)
                  (EvQuery vec0 4 true) 2)
    /\ exc_class e = AttributeError
    /\ process_message cfg0 bot_bare_match latte_query st0
       = (Return PIPELINE_ERROR_REPLY, st')
    /\ post_calls (trace st') = post_calls (trace st0).
Proof.
  exact (missing_metadata_gives_pipeline_error cfg0 bot_bare_match latte_query st0
           vec0 1 {| matches := [latte; bare] |} 2 eq_refl eq_refl
           ltac:(right; left; reflexivity)).
Defined.



(** ** Generation *)

Lemma lstrip_head_not_space s :
  match lstrip s with
  | c :: _ => Py_UNICODE_ISSPACE c = false
  | [] => True
  end.
Proof.
  induction s as [|c r IH]; [exact I|]. cbn [lstrip].
  destruct (Py_UNICODE_ISSPACE c) eqn:Hc; [exact IH | exact Hc].
Qed.

Lemma lstrip_idem s : lstrip (lstrip s) = lstrip s.
Proof.
  pose proof (lstrip_head_not_space s) as H.
  destruct (lstrip s) as [|c r]; [reflexivity|]. cbn [lstrip]. by rewrite H.
Qed.

Lemma lstrip_snoc s h :
  Py_UNICODE_ISSPACE h = false -> lstrip (s ++ [h]) = lstrip s ++ [h].
Proof.
  intros Hh. induction s as [|c r IH]; cbn [lstrip app].
  - by rewrite Hh.
  - destruct (Py_UNICODE_ISSPACE c); [exact IH | reflexivity].
Qed.

(** Stripping twice is stripping once. *)
Lemma strip_idem s : strip (strip s) = strip s.
Proof.
  unfold strip, rstrip.
  pose proof (lstrip_head_not_space s) as Hh.
  destruct (lstrip s) as [|h t]; [reflexivity|].
  cbn [rev]. rewrite (lstrip_snoc (rev t) h Hh).
  rewrite rev_unit. cbn [lstrip]. rewrite Hh. cbn [rev].
  rewrite rev_involutive, (lstrip_snoc _ h Hh), lstrip_idem. apply rev_unit.
Qed.

Lemma fixed_texts_stripped :
  strip LLM_ERROR_TEXT = LLM_ERROR_TEXT
  /\ strip OPENROUTER_ERROR_TEXT = OPENROUTER_ERROR_TEXT
  /\ strip EMPTY_GENERATION_TEXT = EMPTY_GENERATION_TEXT
  /\ strip NO_KNOWLEDGE_TEXT = NO_KNOWLEDGE_TEXT
  /\ strip PIPELINE_ERROR_TEXT = PIPELINE_ERROR_TEXT.
Proof. repeat split; vm_compute; reflexivity. Qed.

Ltac no_content :=
  split; [intros ? Hnone; discriminate Hnone | intros _; eexists; reflexivity].

(** The chain of subscripts succeeds exactly on answers of the expected
    shape, and then gives the stripped content. *)
Lemma completion_text_content (response : Response) :
  (forall c, completion_content response = Some c ->
             completion_text response = Return (strip c))
  /\ (completion_content response = None ->
      exists e, completion_text response = Raise e).
Proof.
  unfold completion_content, completion_text, mbind, outcome_bind.
  destruct (response_json response) as [result|e]; [|no_content].
  destruct result as [| | | | | |o]; cbn [getitem_str]; try no_content.
  destruct (o !! utf8 "choices") as [choices|]; [|no_content].
  destruct choices as [| | | |s|l|o']; cbn [getitem_0]; try no_content.
  { destruct s; cbn [getitem_str]; no_content. }
  destruct l as [|choice l]; [no_content|].
  destruct choice as [| | | | | |oc]; cbn [getitem_str]; try no_content.
  destruct (oc !! utf8 "message") as [message|]; [|no_content].
  destruct message as [| | | | | |om]; cbn [getitem_str]; try no_content.
  destruct (om !! utf8 "content") as [content_|]; [|no_content].
  destruct content_ as [| | | |c| |]; cbn [call_strip]; try no_content.
  split; [intros c' [= <-]; reflexivity | discriminate].
Qed.

Lemma completion_text_stripped (response : Response) a :
  completion_text response = Return a -> strip a = a.
Proof.
  intros Ha. destruct (completion_text_content response) as (Hsome & Hnone).
  destruct (completion_content response) as [c|].
  - rewrite (Hsome c eq_refl) in Ha. injection Ha as <-. apply strip_idem.
  - destruct (Hnone eq_refl) as (e & He). congruence.
Qed.


(** What a logged fallback leaves in the trace. *)
Lemma logged_trace {W A} (st st' : PyState W) (line : str) (a : A) r :
  logged st line a = (r, st') ->
  world st' = world st
  /\ match r with
     | Return b => b = a /\ trace st' = trace st ++ [EvPrint line]
     | Raise e =>
       trace st' = trace st /\ encodable line = false
       /\ exc_class e = UnicodeEncodeError /\ encodable (exc_str e) = true
     end.
Proof.
  intros H. destruct r as [b|e].
  - apply logged_returns in H as (_ & -> & ->). done.
  - apply logged_raises in H as (? & -> & ? & ?). done.
Qed.

(** What [_call_openrouter] leaves in the trace, and what leaves it. *)
Lemma call_openrouter_trace {W} (cfg : Config) (self : Services W)
    (prompt : str) (st : PyState W) :
  exists r st2 log,
    _call_openrouter cfg self prompt st = (r, st2)
    /\ trace st2 = trace st ++ EvPost (openrouter_request cfg prompt) :: log
    /\ match r with
       | Return a => strip a = a /\ (log = [] \/ exists line, log = [EvPrint line])
       | Raise e =>
         exc_class e = UnicodeEncodeError /\ encodable (exc_str e) = true /\ log = []
       end.
Proof.
  destruct fixed_texts_stripped as (Hllm & Hor & _).
  pose proof (call_openrouter_cases cfg self prompt st) as H. cbv zeta in H.
  assert (Hlog : forall w e,
             _call_openrouter cfg self prompt st
             = logged (after_call st (EvPost (openrouter_request cfg prompt)) w)
                 (utf8 "LLM Error: " ++ exc_str e) LLM_ERROR_TEXT ->
             exists r st2 log,
               _call_openrouter cfg self prompt st = (r, st2)
               /\ trace st2 = trace st ++ EvPost (openrouter_request cfg prompt) :: log
               /\ match r with
                  | Return a =>
                    strip a = a /\ (log = [] \/ exists line, log = [EvPrint line])
                  | Raise e =>
                    exc_class e = UnicodeEncodeError /\ encodable (exc_str e) = true
                    /\ log = []
                  end).
  { intros w e He.
    destruct (logged (after_call st (EvPost (openrouter_request cfg prompt)) w)
                (utf8 "LLM Error: " ++ exc_str e) LLM_ERROR_TEXT) as [r st2] eqn:Hl.
    destruct (logged_trace _ _ _ _ _ Hl) as (_ & Hr).
    exists r, st2. destruct r as [b|e'].
    - destruct Hr as (-> & Ht). eexists. split; [exact He|].
      rewrite Ht. unfold after_call. cbn [trace]. rewrite <- app_assoc.
      split; [reflexivity|]. split; [exact Hllm | right; eexists; reflexivity].
    - destruct Hr as (Ht & _ & Hc & Hp). exists []. split; [exact He|].
      rewrite Ht. split; [reflexivity|]. done. }
  destruct (requests_post self _ (world st)) as [[response|e] w]; [|by eapply Hlog].
  destruct (status_code response =? 200)%Z.
  - destruct (completion_text response) as [a|e] eqn:Hc; [|by eapply Hlog].
    exists (Return a). eexists. exists []. split; [exact H|].
    split; [reflexivity|]. split; [exact (completion_text_stripped response a Hc)|by left].
  - exists (Return OPENROUTER_ERROR_TEXT). eexists. eexists. split; [exact H|].
    unfold after_print, after_call. cbn [trace]. rewrite <- app_assoc.
    split; [reflexivity|]. split; [exact Hor | right; eexists; reflexivity].
Qed.

(** X4. [_call_openrouter] makes exactly one request in every case, carrying
    the prompt as its single user message. It then either returns a string
    with no white space at either end, having printed at most one line, or
    raises: what leaves it is only the [UnicodeEncodeError] of the [print]
    of its handler, when the text of the exception the handler caught (from
    the request, or from reading a 200 answer) cannot be encoded; nothing is
    printed then. *)
Theorem call_openrouter_returns_text_or_encode_error {W} (cfg : Config)
    (self : Services W) (prompt : str) (st : PyState W) :
  exists r st2 log,
    _call_openrouter cfg self prompt st = (r, st2)
    /\ trace st2 = trace st ++ EvPost (openrouter_request cfg prompt) :: log
    /\ json_messages (openrouter_request cfg prompt) = [(utf8 "user", prompt)]
    /\ post_calls (trace st2) = S (post_calls (trace st))
    /\ match r with
       | Return a => strip a = a /\ (log = [] \/ exists line, log = [EvPrint line])
       | Raise e' =>
         exc_class e' = UnicodeEncodeError /\ log = []
         /\ exists e,
              encodable (exc_str e) = false
              /\ ((exists w,
                     requests_post self (openrouter_request cfg prompt) (world st)
                     = (Raise e, w))
                  \/ (exists response w,
                        requests_post self (openrouter_request cfg prompt) (world st)
                        = (Return response, w)
                        /\ status_code response = 200%Z
                        /\ completion_text response = Raise e))
       end.
Proof.
  destruct (call_openrouter_trace cfg self prompt st) as (r & st2 & log & H & Ht & Hr).
  exists r, st2, log. split; [exact H|]. split; [exact Ht|]. split; [reflexivity|].
  split; [exact (call_openrouter_post_calls cfg self prompt st st2 r H)|].
  destruct r as [a|e']; [exact Hr|].
  destruct Hr as (Hc & _ & ->). split; [exact Hc|]. split; [reflexivity|].
  pose proof (call_openrouter_cases cfg self prompt st) as Hcases. cbv zeta in Hcases.
  destruct (requests_post self _ (world st)) as [[response|e] w] eqn:Hp.
  - destruct (status_code response =? 200)%Z eqn:Hst.
    + destruct (completion_text response) as [a|e] eqn:Hct; rewrite Hcases in H;
        [discriminate H|].
      apply logged_raises in H as (Hne & _). rewrite encodable_LLM_Error in Hne.
      exists e. split; [exact Hne|]. right. exists response, w.
      split; [reflexivity|]. split; [by apply Z.eqb_eq|exact Hct].
    + rewrite Hcases in H. discriminate H.
  - rewrite Hcases in H. apply logged_raises in H as (Hne & _).
    rewrite encodable_LLM_Error in Hne.
    exists e. split; [exact Hne|]. left. by exists w.
Qed.



Lemma contains_refl (s : str) : contains s s.
Proof. exists [], []. by rewrite app_nil_r. Qed.

Lemma contains_app_l (s post x : str) : contains s x -> contains (s ++ post) x.
Proof.
  intros (p & q & ->). exists p, (q ++ post). by rewrite <- !app_assoc.
Qed.

Lemma contains_trans (s x y : str) : contains s x -> contains x y -> contains s y.
Proof.
  intros (p & q & ->) (p' & q' & ->). exists (p ++ p'), (q' ++ q).
  by rewrite <- !app_assoc.
Qed.

Ltac find_in_prompt :=
  repeat first [ apply contains_app_l; apply contains_refl | apply contains_app_r ].

Lemma prompt_contains_query (query context : str) :
  contains (build_prompt query context) query.
Proof. unfold build_prompt. find_in_prompt. Qed.

Lemma prompt_contains_context (query context : str) :
  contains (build_prompt query context) context.
Proof. unfold build_prompt. find_in_prompt. Qed.

Lemma render_document_contains (d : Document) :
  contains (render_document d) (title d) /\ contains (render_document d) (content d).
Proof.
  unfold render_document. split.
  - apply contains_app_r, contains_app_l, contains_refl.
  - apply contains_app_r, contains_app_r, contains_app_r, contains_refl.
Qed.

(** X6. [generate_response] makes exactly one request, whatever comes of
    it; the prompt it sends as the single user message contains the
    question, and the title and the content of every document it was
    given. *)
Theorem generate_response_sends_question_and_documents {W} (cfg : Config)
    (self : Services W) (query : str) (context_docs : list Document)
    (st : PyState W) :
  exists r st2 log prompt,
    generate_response cfg self query context_docs st = (r, st2)
    /\ trace st2 = trace st ++ EvPost (openrouter_request cfg prompt) :: log
    /\ (log = [] \/ exists line, log = [EvPrint line])
    /\ post_calls (trace st2) = S (post_calls (trace st))
    /\ json_messages (openrouter_request cfg prompt) = [(utf8 "user", prompt)]
    /\ contains prompt query
    /\ forall d, In d context_docs ->
                 contains prompt (title d) /\ contains prompt (content d).
Proof.
  destruct (call_openrouter_trace cfg self (prompt_of query context_docs) st)
    as (r & st2 & log & H & Ht & Hr).
  exists r, st2, log, (prompt_of query context_docs).
  split; [exact H|]. split; [exact Ht|].
  split; [destruct r; [exact (proj2 Hr) | left; exact (proj2 (proj2 Hr))]|].
  split; [exact (call_openrouter_post_calls cfg self _ st st2 r H)|].
  split; [reflexivity|].
  split; [apply prompt_contains_query|].
  intros d Hd.
  assert (Hc : contains (prompt_of query context_docs) (render_document d)).
  { eapply contains_trans; [apply prompt_contains_context|].
    apply join_contains, in_map, Hd. }
  destruct (render_document_contains d) as (Ht' & Hc').
  split; eapply contains_trans; eauto.
Qed.

(** ** The pipeline as a whole *)

(** What [search_knowledge] leaves in the trace. *)
Lemma search_knowledge_trace {W} (self : Services W) (query : str) (top_k : Z)
    (st st1 : PyState W) r :
  search_knowledge self query top_k st = (r, st1) ->
  match r with
  | Return _ => exists v, trace st1 = trace st ++ [EvEncode query; EvQuery v top_k true]
  | Raise _ =>
    exists pre,
      trace st1 = trace st ++ EvEncode query :: pre
      /\ (pre = [] \/ exists v, pre = [EvQuery v top_k true])
  end.
Proof.
  pose proof (search_knowledge_cases self query top_k st) as H.
  destruct (embedder_encode self query (world st)) as [[v|e] w1].
  - cbv zeta in H. destruct (index_query self v top_k true w1) as [[results|e] w2];
      rewrite H; intros [= <- <-]; unfold after_call; cbn [trace];
      rewrite <- app_assoc.
    + destruct (append_documents (matches results) []).
      * by exists v.
      * exists [EvQuery v top_k true]. split; [reflexivity|]. right. by exists v.
    + exists [EvQuery v top_k true]. split; [reflexivity|]. right. by exists v.
  - rewrite H. intros [= <- <-]. exists []. split; [reflexivity|by left].
Qed.

(** [_call_openrouter] prints nothing exactly when the endpoint answered 200
    with a content that could be read. *)
Lemma call_openrouter_quiet {W} (cfg : Config) (self : Services W) (prompt : str)
    (st st2 : PyState W) r :
  _call_openrouter cfg self prompt st = (r, st2) ->
  exists log,
    trace st2 = trace st ++ EvPost (openrouter_request cfg prompt) :: log
    /\ (log = [] \/ exists line, log = [EvPrint line])
    /\ ((exists a, r = Return a /\ log = [])
        <-> exists response w a,
              requests_post self (openrouter_request cfg prompt) (world st)
              = (Return response, w)
              /\ status_code response = 200%Z
              /\ completion_text response = Return a).
Proof.
  pose proof (call_openrouter_cases cfg self prompt st) as H. cbv zeta in H.
  assert (Hlog : forall w e,
             logged (after_call st (EvPost (openrouter_request cfg prompt)) w)
               (utf8 "LLM Error: " ++ exc_str e) LLM_ERROR_TEXT = (r, st2) ->
             exists log,
               trace st2 = trace st ++ EvPost (openrouter_request cfg prompt) :: log
               /\ (log = [] \/ exists line, log = [EvPrint line])
               /\ ~ (exists a, r = Return a /\ log = [])).
  { intros w e Hl. destruct (logged_trace _ _ _ _ _ Hl) as (_ & Hr).
    destruct r as [b|e'].
    - destruct Hr as (_ & Ht). eexists. rewrite Ht. unfold after_call. cbn [trace].
      rewrite <- app_assoc. split; [reflexivity|].
      split; [right; eexists; reflexivity|]. intros (a & _ & Hnil). discriminate Hnil.
    - destruct Hr as (Ht & _). exists []. rewrite Ht. split; [reflexivity|].
      split; [by left|]. intros (a & Ha & _). discriminate Ha. }
  destruct (requests_post self _ (world st)) as [[response|e] w] eqn:Hp.
  - destruct (status_code response =? 200)%Z eqn:Hst.
    + destruct (completion_text response) as [a|e] eqn:Hc; rewrite H.
      * intros [= <- <-]. exists []. split; [reflexivity|]. split; [by left|].
        split; [|by exists a].
        intros _. exists response, w, a. split; [reflexivity|].
        split; [by apply Z.eqb_eq|exact Hc].
      * intros Hl. destruct (Hlog w e Hl) as (log & Ht & Hshape & Hno).
        exists log. split; [exact Ht|]. split; [exact Hshape|].
        split; [intros Hq; destruct (Hno Hq)|].
        intros (response' & w' & a & [= <- <-] & _ & Ha). congruence.
    + rewrite H. intros [= <- <-]. eexists. unfold after_print, after_call.
      cbn [trace]. rewrite <- app_assoc. split; [reflexivity|].
      split; [right; eexists; reflexivity|].
      split; [intros (a & _ & Hnil); discriminate Hnil|].
      intros (response' & w' & a & [= <- <-] & Hs & _).
      apply Z.eqb_neq in Hst. congruence.
  - rewrite H. intros Hl. destruct (Hlog w e Hl) as (log & Ht & Hshape & Hno).
    exists log. split; [exact Ht|]. split; [exact Hshape|].
    split; [intros Hq; destruct (Hno Hq)|].
    intros (response' & w' & a & Hq & _). discriminate Hq.
Qed.

(** The replies [process_message] can return. *)
Lemma process_message_returned {W} (cfg : Config) (self : Services W)
    (user_message : str) (st st' : PyState W) reply :
  process_message cfg self user_message st = (Return reply, st') ->
  reply = NO_KNOWLEDGE_REPLY \/ reply = PIPELINE_ERROR_REPLY
  \/ exists a documents st1,
       search_knowledge self user_message 4 st = (Return documents, st1)
       /\ documents <> []
       /\ _call_openrouter cfg self (prompt_of user_message documents) st1
          = (Return a, st')
       /\ reply = answer_reply (kept_answer a) documents.
Proof.
  intros Hpm.
  pose proof (process_message_cases cfg self user_message st) as H.
  destruct (search_knowledge self user_message 4 st) as [[[|d documents]|e] st1].
  - rewrite H in Hpm. injection Hpm as <- <-. by left.
  - destruct (_call_openrouter cfg self (prompt_of user_message (d :: documents)) st1)
      as [[a|e] st2] eqn:Ha; rewrite H in Hpm; injection Hpm as <- <-.
    + right; right. exists a, (d :: documents), st1. by repeat split.
    + right; by left.
  - rewrite H in Hpm. apply logged_returns in Hpm as (_ & -> & _). right; by left.
Qed.


(** X8. The text of every reply [process_message] returns has no white
    space at either end: stripping it changes nothing. *)
Theorem reply_text_is_stripped {W} (cfg : Config) (self : Services W)
    (user_message : str) (st st' : PyState W) reply :
  process_message cfg self user_message st = (Return reply, st') ->
  exists t, reply_text reply = Some t /\ strip t = t.
Proof.
  intros Hpm.
  destruct fixed_texts_stripped as (_ & _ & Hempty & Hnk & Hpe).
  destruct fallback_replies_values as (Hnkt & _ & _ & _ & Hpet & _).
  destruct (process_message_returned cfg self user_message st st' reply Hpm)
    as [->|[->|(a & documents & st1 & _ & _ & Ha & ->)]].
  - exists NO_KNOWLEDGE_TEXT. split; [exact Hnkt|exact Hnk].
  - exists PIPELINE_ERROR_TEXT. split; [exact Hpet|exact Hpe].
  - exists (kept_answer a). split; [apply answer_reply_text|].
    destruct (call_openrouter_trace cfg self (prompt_of user_message documents) st1)
      as (r & st2 & log & Ha' & _ & Hr).
    rewrite Ha in Ha'. injection Ha' as <- <-. destruct Hr as (Hstrip & _).
    unfold kept_answer. destruct (negb (str_truthy (strip a))); [exact Hempty|exact Hstrip].
Qed.

Lemma reply_text_is_stripped_witness :
  exists t,
    reply_text (answer_reply (utf8 "ลาเต้ 45 บาทค่ะ ☕") [latte_document]) = Some t
    /\ strip t = t.
Proof.
  apply (reply_text_is_stripped cfg0 bot_answering latte_query st0
           (process_message cfg0 bot_answering latte_query st0).2).
  vm_compute. reflexivity.
Defined.

Lemma quick_reply_menus :
  quick_replies NO_KNOWLEDGE_REPLY = Some NO_KNOWLEDGE_QUICK_REPLIES
  /\ quick_replies PIPELINE_ERROR_REPLY = Some PIPELINE_ERROR_QUICK_REPLIES
  /\ sources NO_KNOWLEDGE_REPLY = None
  /\ sources PIPELINE_ERROR_REPLY = None.
Proof. repeat split; vm_compute; reflexivity. Qed.

(** X9. The quick replies of a reply [process_message] returns follow the
    path taken: the reply built after generation (the one with sources)
    carries the menu of four entries, each fallback reply (without sources)
    a menu of two; a reply always has a non-empty menu. *)
Theorem quick_replies_follow_the_path {W} (cfg : Config) (self : Services W)
    (user_message : str) (st st' : PyState W) reply :
  process_message cfg self user_message st = (Return reply, st') ->
  exists q,
    quick_replies reply = Some q
    /\ match sources reply with
       | Some _ => q = ANSWER_QUICK_REPLIES /\ length q = 4
       | None =>
         (q = NO_KNOWLEDGE_QUICK_REPLIES \/ q = PIPELINE_ERROR_QUICK_REPLIES)
         /\ length q = 2
       end.
Proof.
  intros Hpm.
  destruct quick_reply_menus as (Hq1 & Hq2 & Hs1 & Hs2).
  destruct (process_message_returned cfg self user_message st st' reply Hpm)
    as [->|[->|(a & documents & st1 & _ & _ & _ & ->)]].
  - exists NO_KNOWLEDGE_QUICK_REPLIES. split; [exact Hq1|]. rewrite Hs1.
    split; [by left | reflexivity].
  - exists PIPELINE_ERROR_QUICK_REPLIES. split; [exact Hq2|]. rewrite Hs2.
    split; [by right | reflexivity].
  - exists ANSWER_QUICK_REPLIES. split; [apply answer_reply_quick_replies|].
    rewrite answer_reply_sources. split; reflexivity.
Qed.

Lemma quick_replies_follow_the_path_witness :
  exists q,
    quick_replies NO_KNOWLEDGE_REPLY = Some q
    /\ match sources NO_KNOWLEDGE_REPLY with
       | Some _ => q = ANSWER_QUICK_REPLIES /\ length q = 4
       | None =>
         (q = NO_KNOWLEDGE_QUICK_REPLIES \/ q = PIPELINE_ERROR_QUICK_REPLIES)
         /\ length q = 2
       end.
Proof.
  apply (quick_replies_follow_the_path cfg0 bot_no_match latte_query st0
           (process_message cfg0 bot_no_match latte_query st0).2).
  vm_compute. reflexivity.
Defined.

(** ** The LINE handler *)

(** What [handle_message] finds in a dictionary [process_message] returned. *)
Lemma process_message_reply_entries {W} (cfg : Config) (self : Services W)
    (user_message : str) (st st' : PyState W) reply :
  process_message cfg self user_message st = (Return reply, st') ->
  exists t q,
    reply !! k_reply = Some (VStr t)
    /\ reply !! k_quick_replies = Some (VList q)
    /\ q <> [].
Proof.
  intros Hpm.
  destruct (process_message_returned cfg self user_message st st' reply Hpm)
    as [->|[->|(a & documents & st1 & _ & _ & _ & ->)]].
  - exists NO_KNOWLEDGE_TEXT, NO_KNOWLEDGE_QUICK_REPLIES.
    repeat split; [vm_compute; reflexivity ..|discriminate].
  - exists PIPELINE_ERROR_TEXT, PIPELINE_ERROR_QUICK_REPLIES.
    repeat split; [vm_compute; reflexivity ..|discriminate].
  - exists (kept_answer a), ANSWER_QUICK_REPLIES.
    repeat split; [by reply_lookup ..|discriminate].
Qed.






(** ** Start of the program *)

Lemma grew_without_run_refl {W} (st : PyState W) : grew_without_run st st.
Proof. exists []. by rewrite app_nil_r. Qed.

Lemma grew_without_run_trans {W} (st1 st2 st3 : PyState W) :
  grew_without_run st1 st2 -> grew_without_run st2 st3 -> grew_without_run st1 st3.
Proof.
  intros (n1 & H1 & Hn1) (n2 & H2 & Hn2). exists (n1 ++ n2).
  rewrite H2, H1, <- app_assoc. split; [reflexivity|].
  rewrite existsb_app, Hn1, Hn2. reflexivity.
Qed.

Lemma grew_without_run_trace {W} (st st' : PyState W) new :
  trace st' = trace st ++ new -> existsb is_run new = false -> grew_without_run st st'.
Proof. intros H Hn. by exists new. Qed.

Lemma print_without_run {W} (line : str) (st st' : PyState W) r :
  print line st = (r, st') -> grew_without_run st st'.
Proof.
  unfold print. destruct (stdout_encode line) as [[]|e]; intros [= _ <-].
  - by exists [EvPrint line].
  - apply grew_without_run_refl.
Qed.

Lemma logged_without_run {W A} (st st' : PyState W) (line : str) (a : A) r :
  logged st line a = (r, st') -> grew_without_run st st'.
Proof.
  unfold logged. destruct (stdout_encode line) as [[]|e]; intros [= _ <-].
  - by exists [EvPrint line].
  - apply grew_without_run_refl.
Qed.

Lemma search_knowledge_without_run {W} (self : Services W) query top_k
    (st st1 : PyState W) r :
  search_knowledge self query top_k st = (r, st1) -> grew_without_run st st1.
Proof.
  intros H. apply search_knowledge_trace in H. destruct r.
  - destruct H as (v & Ht). by eapply grew_without_run_trace.
  - destruct H as (pre & Ht & [->|(v & ->)]); by eapply grew_without_run_trace.
Qed.

Lemma call_openrouter_without_run {W} (cfg : Config) (self : Services W) prompt
    (st st2 : PyState W) r :
  _call_openrouter cfg self prompt st = (r, st2) -> grew_without_run st st2.
Proof.
  intros H. destruct (call_openrouter_quiet cfg self prompt st st2 r H)
    as (log & Ht & [->|(line & ->)] & _); by eapply grew_without_run_trace.
Qed.

(** [process_message] only adds to the trace, and never starts the server;
    what leaves it by an exception is the encoding error of its handler's
    [print]. *)
Lemma process_message_frame {W} (cfg : Config) (self : Services W) user_message
    (st st' : PyState W) r :
  process_message cfg self user_message st = (r, st') ->
  grew_without_run st st'
  /\ match r with
     | Return _ => True
     | Raise e => exc_class e = UnicodeEncodeError
     end.
Proof.
  intros Hpm.
  pose proof (process_message_cases cfg self user_message st) as H.
  destruct (search_knowledge self user_message 4 st) as [[[|d documents]|e] st1] eqn:Hs;
    apply search_knowledge_without_run in Hs.
  - rewrite H in Hpm. injection Hpm as <- <-. by split.
  - destruct (_call_openrouter cfg self (prompt_of user_message (d :: documents)) st1)
      as [[a|e] st2] eqn:Ha; apply call_openrouter_without_run in Ha;
      rewrite H in Hpm; injection Hpm as <- <-.
    + split; [by eapply grew_without_run_trans|done].
    + split; [|done]. eapply grew_without_run_trans; [exact Hs|].
      eapply grew_without_run_trans; [exact Ha|]. by exists [EvPrint (utf8 "RAG Error: " ++ exc_str e)].
  - rewrite H in Hpm. split.
    + eapply grew_without_run_trans; [exact Hs|]. by eapply logged_without_run.
    + destruct r as [b|e']; [done|]. by apply logged_raises in Hpm as (_ & _ & ? & _).
Qed.

Lemma print_raises {W} (line : str) (st st' : PyState W) e :
  print line st = (Raise e, st') -> exc_class e = UnicodeEncodeError.
Proof.
  unfold print. destruct (stdout_encode line) as [[]|e'] eqn:H; [discriminate|].
  intros [= <- _]. by apply stdout_encode_raises in H as (_ & ? & _).
Qed.

(** The loop of [test_rag] only adds to the trace, never starts the server,
    and fails only by a [print]. *)
Lemma test_rag_loop_frame {W} (repr_list : list str -> str) (cfg : Config)
    (rag_bot : Services W) (test_queries : list str) :
  forall (st st' : PyState W) r,
    test_rag_loop repr_list cfg rag_bot test_queries st = (r, st') ->
    grew_without_run st st'
    /\ match r with
       | Return _ => True
       | Raise e => exc_class e = UnicodeEncodeError
       end.
Proof.
  induction test_queries as [|query rest IH]; intros st st' r H.
  { injection H as <- <-. split; [apply grew_without_run_refl|done]. }
  cbn [test_rag_loop] in H. unfold mbind, M_bind, lift, dict_getitem in H.
  destruct (print (nl ++ utf8 "👤 " ++ query) st) as [[[]|e] s1] eqn:H1.
  2: { injection H as <- <-. split; [by eapply print_without_run|by eapply print_raises]. }
  apply print_without_run in H1.
  destruct (process_message cfg rag_bot query s1) as [[result|e] s2] eqn:H2.
  2: { injection H as <- <-. apply process_message_frame in H2 as (Hg & Hc).
       split; [by eapply grew_without_run_trans|exact Hc]. }
  destruct (process_message_reply_entries cfg rag_bot query s1 s2 result H2)
    as (t & q & Ht & _).
  apply process_message_frame in H2 as (H2 & _).
  rewrite Ht in H.
  destruct (print (utf8 "🤖 " ++ format_value repr_list (VStr t)) s2)
    as [[[]|e] s3] eqn:H3.
  2: { injection H as <- <-. split; [|by eapply print_raises].
       eapply grew_without_run_trans; [exact H1|].
       eapply grew_without_run_trans; [exact H2|]. by eapply print_without_run. }
  apply print_without_run in H3.
  destruct (print (utf8 "📚 Sources: "
                   ++ format_value repr_list (default (VList []) (result !! k_sources)))
              s3) as [[[]|e] s4] eqn:H4.
  2: { injection H as <- <-. split; [|by eapply print_raises].
       eapply grew_without_run_trans; [exact H1|].
       eapply grew_without_run_trans; [exact H2|].
       eapply grew_without_run_trans; [exact H3|]. by eapply print_without_run. }
  apply print_without_run in H4.
  apply IH in H as (Hg & Hr). split; [|exact Hr].
  eapply grew_without_run_trans; [exact H1|].
  eapply grew_without_run_trans; [exact H2|].
  eapply grew_without_run_trans; [exact H3|].
  eapply grew_without_run_trans; [exact H4|exact Hg].
Qed.

Lemma test_rag_frame {W} (repr_list : list str -> str) (cfg : Config)
    (rag_bot : Services W) (st st' : PyState W) r :
  test_rag repr_list cfg rag_bot st = (r, st') ->
  grew_without_run st st'
  /\ match r with
     | Return _ => True
     | Raise e => exc_class e = UnicodeEncodeError
     end.
Proof.
  unfold test_rag, mbind, M_bind.
  rewrite print_encodable by (vm_compute; reflexivity).
  intros H. apply test_rag_loop_frame in H as (Hg & Hr). split; [|exact Hr].
  eapply grew_without_run_trans; [|exact Hg].
  by exists [EvPrint (utf8 "🧪 Testing RAG Bot...")].
Qed.


(* ===================================================================== *)
(** * Properties of [setup.py] *)
(* ===================================================================== *)

(** ** The loop of [import_cafe_data] *)

Lemma metadata_keys_distinct :
  utf8 "title" <> utf8 "content" /\ utf8 "title" <> utf8 "source_url"
  /\ utf8 "title" <> utf8 "type" /\ utf8 "content" <> utf8 "source_url"
  /\ utf8 "content" <> utf8 "type" /\ utf8 "source_url" <> utf8 "type".
Proof. repeat split; intros E; vm_compute in E; discriminate E. Qed.

(** One turn of the loop: the record is read, then its text embedded. *)
Lemma vector_of_cases {W} (py_str : json -> str) (svc : SetupServices W)
    (i : nat) (doc : json) (st : PyState W) :
  match embedded_text py_str doc with
  | Some text =>
    match setup_encode svc text (world st) with
    | (Return vector, w) =>
      exists entry,
        vector_of py_str svc i doc st = (Return entry, after_call st (EvEncode text) w)
        /\ entry_for i doc entry
        /\ vector_values entry = vector
    | (Raise e, w) =>
      vector_of py_str svc i doc st = (Raise e, after_call st (EvEncode text) w)
    end
  | None => exists e, vector_of py_str svc i doc st = (Raise e, st)
  end.
Proof.
  destruct metadata_keys_distinct as (H1 & H2 & H3 & H4 & H5 & H6).
  unfold embedded_text, vector_of, getitem_str, json_get.
  unfold mbind, M_bind, mret, M_ret, lift, call, after_call.
  destruct doc as [| | | | | |o]; try (eexists; reflexivity).
  destruct (o !! utf8 "title") as [t|] eqn:Et; [|eexists; reflexivity].
  destruct (o !! utf8 "content") as [c|] eqn:Ec; [|eexists; reflexivity].
  destruct (setup_encode svc _ (world st)) as [[vector|e] w]; [|reflexivity].
  eexists. split; [reflexivity|]. split; [|reflexivity].
  exists o, t, c. cbn [vector_id vector_metadata].
  split; [reflexivity|]. split; [exact Et|]. split; [exact Ec|]. split; [reflexivity|].
  split; [rewrite !dom_insert_L, dom_empty_L; set_solver|].
  repeat split;
    repeat first [ rewrite lookup_insert_eq | rewrite lookup_insert_ne by congruence ];
    reflexivity.
Qed.

(** The loop appends one dictionary per record, in order; the ids count
    from the position the loop started at. *)
Lemma build_vectors_returns {W} (py_str : json -> str) (svc : SetupServices W)
    (docs : list json) :
  forall (i : nat) (vectors out : list VectorEntry) (st st' : PyState W),
    build_vectors py_str svc docs i vectors st = (Return out, st') ->
    exists new,
      out = vectors ++ new
      /\ length new = length docs
      /\ forall k doc, docs !! k = Some doc ->
           exists entry, new !! k = Some entry /\ entry_for (i + k) doc entry.
Proof.
  induction docs as [|doc docs IH]; intros i vectors out st st' H.
  - injection H as <- <-. exists []. rewrite app_nil_r.
    split; [done|]. split; [done|]. intros k doc Hk. by rewrite lookup_nil in Hk.
  - cbn [build_vectors] in H. unfold mbind, M_bind in H.
    pose proof (vector_of_cases py_str svc i doc st) as Hv.
    destruct (embedded_text py_str doc) as [text|].
    + destruct (setup_encode svc text (world st)) as [[vector|e] w].
      * destruct Hv as (entry & Hv & He & _). rewrite Hv in H.
        apply IH in H as (new & -> & Hlen & Hent).
        exists (entry :: new). rewrite <- app_assoc.
        split; [done|]. split; [simpl; by rewrite Hlen|].
        intros [|k] doc' Hk.
        -- injection Hk as <-. exists entry. rewrite Nat.add_0_r. by split.
        -- destruct (Hent k doc' Hk) as (entry' & Hl & He').
           exists entry'. split; [exact Hl|].
           by replace (i + S k) with (S i + k) by lia.
      * rewrite Hv in H. discriminate H.
    + destruct Hv as (e & Hv). rewrite Hv in H. discriminate H.
Qed.

(** The loop never uses [index.upsert]. *)
Lemma build_vectors_upsert_irrelevant {W} (py_str : json -> str)
    (svc : SetupServices W) upsert (docs : list json) :
  forall i vectors (st : PyState W),
    build_vectors py_str (with_index_upsert svc upsert) docs i vectors st
    = build_vectors py_str svc docs i vectors st.
Proof.
  induction docs as [|doc docs IH]; intros i vectors st; [reflexivity|].
  cbn [build_vectors]. unfold mbind, M_bind.
  change (vector_of py_str (with_index_upsert svc upsert) i doc st)
    with (vector_of py_str svc i doc st).
  destruct (vector_of py_str svc i doc st) as [[entry|e] st1]; [apply IH|reflexivity].
Qed.

Lemma encodable_Uploaded (n : Z) :
  encodable (utf8 "✅ Uploaded " ++ str_of_Z n ++ utf8 " documents") = true.
Proof.
  rewrite !encodable_app, str_of_Z_encodable.
  vm_compute (encodable (utf8 "✅ Uploaded ")).
  by vm_compute (encodable (utf8 " documents")).
Qed.

Ltac run_import :=
  unfold import_cafe_data, mbind, M_bind, mret, M_ret, perform, lift;
  rewrite (print_encodable (utf8 "🏪 Importing cafe data...")) by (vm_compute; reflexivity);
  unfold after_print;
  cbn [world trace with_index_upsert SentenceTransformer_new Pinecone_new pc_Index
         load_cafe_data index_upsert];
  repeat first
    [ rewrite build_vectors_upsert_irrelevant
    | match goal with
      | E : _ = (_, _) |- _ => rewrite E; cbn [world trace]
      | E : json_iter _ = _ |- _ => rewrite E; cbn [world trace]
      end ].

(** The import, step by step: everything before [index.upsert] is the same
    whatever [index.upsert] does. *)
Lemma import_cafe_data_steps {W : Type} (py_str : json -> str)
    (environ : gmap str str) (svc : SetupServices W) (st : PyState W) :
  (exists e st1, forall upsert,
      import_cafe_data py_str environ (with_index_upsert svc upsert) st
      = (Raise e, st1))
  \/ (exists cafe w w' docs st0 vectors st1,
        load_cafe_data svc (utf8 "cafe_data.json") w = (Return cafe, w')
        /\ json_iter cafe = Return docs
        /\ build_vectors py_str svc docs 0 [] st0 = (Return vectors, st1)
        /\ forall upsert,
            import_cafe_data py_str environ (with_index_upsert svc upsert) st
            = match upsert vectors (world st1) with
              | (Return _, w) =>
                (Return (Z.of_nat (length vectors)),
                 after_print {| world := w; trace := trace st1 |}
                   (utf8 "✅ Uploaded " ++ str_of_Z (Z.of_nat (length vectors))
                      ++ utf8 " documents"))
              | (Raise e, w) => (Raise e, {| world := w; trace := trace st1 |})
              end).
Proof.
  destruct (SentenceTransformer_new svc (utf8 "all-MiniLM-L6-v2") (world st))
    as [[[]|e] w1] eqn:E1; [|left; eexists _, _; intros upsert; run_import; reflexivity].
  destruct (Pinecone_new svc (PINECONE_API_KEY (load_Config environ)) w1)
    as [[[]|e] w2] eqn:E2; [|left; eexists _, _; intros upsert; run_import; reflexivity].
  destruct (pc_Index svc PINECONE_INDEX_NAME w2)
    as [[[]|e] w3] eqn:E3; [|left; eexists _, _; intros upsert; run_import; reflexivity].
  destruct (load_cafe_data svc (utf8 "cafe_data.json") w3)
    as [[cafe|e] w4] eqn:E4; [|left; eexists _, _; intros upsert; run_import; reflexivity].
  destruct (json_iter cafe) as [docs|e] eqn:E5;
    [|left; eexists _, _; intros upsert; run_import; reflexivity].
  destruct (build_vectors py_str svc docs 0 []
              {| world := w4;
                 trace := trace st ++ [EvPrint (utf8 "🏪 Importing cafe data...")] |})
    as [[vectors|e] st1] eqn:E6;
    [|left; eexists _, _; intros upsert; run_import; reflexivity].
  right. exists cafe, w3, w4, docs. eexists. exists vectors, st1.
  split; [exact E4|]. split; [exact E5|]. split; [exact E6|].
  intros upsert. run_import.
  destruct (upsert vectors (world st1)) as [[[]|e] w]; [|reflexivity].
  by rewrite print_encodable by apply encodable_Uploaded.
Qed.

(** X12. The import uploads everything at once or nothing: [index.upsert] is
    called at most once, as the last service call, with the whole list of
    vectors; whatever fails before that (a model or client that cannot be
    built, a data file that cannot be read or iterated, a record without
    title or content, an embedding that fails) ends the import with nothing
    uploaded.  On success the function returns the number of vectors. *)
Theorem import_uploads_all_or_nothing {W : Type} (py_str : json -> str)
    (environ : gmap str str) (svc : SetupServices W) (st : PyState W) :
  (exists e st1, forall upsert,
      import_cafe_data py_str environ (with_index_upsert svc upsert) st
      = (Raise e, st1))
  \/ (exists vectors st1, forall upsert,
        import_cafe_data py_str environ (with_index_upsert svc upsert) st
        = match upsert vectors (world st1) with
          | (Return _, w) =>
            (Return (Z.of_nat (length vectors)),
             after_print {| world := w; trace := trace st1 |}
               (utf8 "✅ Uploaded " ++ str_of_Z (Z.of_nat (length vectors))
                  ++ utf8 " documents"))
          | (Raise e, w) => (Raise e, {| world := w; trace := trace st1 |})
          end).
Proof.
  destruct (import_cafe_data_steps py_str environ svc st)
    as [(e & st1 & H)|(cafe & w & w' & docs & st0 & vectors & st1 & _ & _ & _ & H)].
  - left. by exists e, st1.
  - right. by exists vectors, st1.
Qed.

Lemma with_index_upsert_same {W : Type} (svc : SetupServices W) :
  with_index_upsert svc (index_upsert svc) = svc.
Proof. by destruct svc. Qed.

(** X13. When [import_cafe_data] returns, the number it returns is the
    number of records of [cafe_data.json], every record is an object with a
    title and a content, and the list passed to [index.upsert] holds one
    vector per record, in order: the vector of record [k] has the id
    [cafe_k], and a metadata of exactly four entries, the record's title and
    content, and its [source_url] and [type] or the empty string.  No two
    vectors share an id. *)
Theorem import_returns_one_vector_per_record {W : Type} (py_str : json -> str)
    (environ : gmap str str) (svc : SetupServices W) (st st' : PyState W) (n : Z) :
  import_cafe_data py_str environ svc st = (Return n, st') ->
  exists cafe w w' docs vectors w1,
    load_cafe_data svc (utf8 "cafe_data.json") w = (Return cafe, w')
    /\ json_iter cafe = Return docs
    /\ n = Z.of_nat (length docs)
    /\ index_upsert svc vectors w1 = (Return tt, world st')
    /\ length vectors = length docs
    /\ (forall k doc, docs !! k = Some doc ->
          exists entry, vectors !! k = Some entry /\ entry_for k doc entry)
    /\ NoDup (map vector_id vectors).
Proof.
  intros H.
  destruct (import_cafe_data_steps py_str environ svc st)
    as [(e & st1 & Hi)|(cafe & w & w' & docs & st0 & vectors & st1 & Hl & Hj & Hb & Hi)].
  - specialize (Hi (index_upsert svc)). rewrite with_index_upsert_same, H in Hi.
    discriminate Hi.
  - specialize (Hi (index_upsert svc)). rewrite with_index_upsert_same, H in Hi.
    apply build_vectors_returns in Hb as (new & -> & Hlen & Hent).
    cbn [app] in *.
    destruct (index_upsert svc new (world st1)) as [[[]|e] w2] eqn:Hu; [|discriminate Hi].
    injection Hi as -> ->.
    exists cafe, w, w', docs, new, (world st1).
    split; [exact Hl|]. split; [exact Hj|]. split; [by rewrite Hlen|].
    split; [exact Hu|]. split; [exact Hlen|]. split; [exact Hent|].
    apply NoDup_alt. intros i j x Hi Hj'.
    rewrite list_lookup_fmap in Hi, Hj'.
    destruct (new !! i) as [vi|] eqn:Ei; [|discriminate Hi].
    destruct (new !! j) as [vj|] eqn:Ej; [|discriminate Hj'].
    injection Hi as Hi. injection Hj' as Hj'.
    assert (Hdi : is_Some (docs !! i)).
    { apply lookup_lt_is_Some. rewrite <- Hlen. by eapply lookup_lt_Some. }
    assert (Hdj : is_Some (docs !! j)).
    { apply lookup_lt_is_Some. rewrite <- Hlen. by eapply lookup_lt_Some. }
    destruct Hdi as (di & Hdi), Hdj as (dj & Hdj).
    destruct (Hent i di Hdi) as (vi' & Ei' & (? & ? & ? & _ & _ & _ & Hidi & _)).
    destruct (Hent j dj Hdj) as (vj' & Ej' & (? & ? & ? & _ & _ & _ & Hidj & _)).
    rewrite Ei in Ei'. rewrite Ej in Ej'. injection Ei' as <-. injection Ej' as <-.
    rewrite <- Hj' in Hi. rewrite Hidi, Hidj in Hi.
    apply app_inv_head in Hi. by apply str_of_nat_inj.
Qed.

Lemma import_returns_one_vector_per_record_witness :
  (import_cafe_data py_str_double environ_full
     (setup_double (Return cafe_two_records)) setup_st0).1 = Return 2%Z
  /\ exists cafe w w' docs vectors w1,
       load_cafe_data (setup_double (Return cafe_two_records)) (utf8 "cafe_data.json") w
       = (Return cafe, w')
       /\ json_iter cafe = Return docs
       /\ 2%Z = Z.of_nat (length docs)
       /\ index_upsert (setup_double (Return cafe_two_records)) vectors w1
          = (Return tt,
             world (import_cafe_data py_str_double environ_full
                      (setup_double (Return cafe_two_records)) setup_st0).2)
       /\ length vectors = length docs
       /\ (forall k doc, docs !! k = Some doc ->
             exists entry, vectors !! k = Some entry /\ entry_for k doc entry)
       /\ NoDup (map vector_id vectors).
Proof.
  split; [vm_compute; reflexivity|].
  apply (import_returns_one_vector_per_record py_str_double environ_full
           (setup_double (Return cafe_two_records)) setup_st0).
  vm_compute; reflexivity.
Defined.

(** ** [setup_pinecone_index] *)

(** X14. [setup_pinecone_index] creates the index only when its name is not
    among the existing ones: an index that exists is left alone, whatever
    [create_index] would do; a missing one is created once, with the
    configured name and dimension, the cosine metric and the serverless
    spec of AWS us-east-1, and a failure of the creation is raised. *)
Theorem index_is_created_only_when_missing {W : Type} (environ : gmap str str)
    (svc : SetupServices W) (st : PyState W) (w1 w2 : W) (names : list str) :
  Pinecone_new svc (PINECONE_API_KEY (load_Config environ)) (world st) = (Return tt, w1) ->
  pc_list_indexes svc w1 = (Return names, w2) ->
  (PINECONE_INDEX_NAME ∈ names ->
   forall create,
     setup_pinecone_index environ (with_create_index svc create) st
     = (Return tt,
        {| world := w2;
           trace := trace st
                    ++ [EvPrint (utf8 "📊 Setting up Pinecone index...");
                        EvPrint (utf8 "✅ Index already exists: " ++ PINECONE_INDEX_NAME)] |}))
  /\ (PINECONE_INDEX_NAME ∉ names ->
      forall create,
        setup_pinecone_index environ (with_create_index svc create) st
        = match create PINECONE_INDEX_NAME EMBEDDING_DIMENSION (utf8 "cosine")
                  {| cloud := AWS; region := US_EAST_1 |} w2 with
          | (Return _, w3) =>
            (Return tt,
             {| world := w3;
                trace := trace st
                         ++ [EvPrint (utf8 "📊 Setting up Pinecone index...");
                             EvPrint (utf8 "✅ Created index: " ++ PINECONE_INDEX_NAME)] |})
          | (Raise e, w3) =>
            (Raise e,
             {| world := w3;
                trace := trace st ++ [EvPrint (utf8 "📊 Setting up Pinecone index...")] |})
          end).
Proof.
  intros Hnew Hlist.
  split; intros Hin create;
    unfold setup_pinecone_index, mbind, M_bind, perform;
    rewrite (print_encodable (utf8 "📊 Setting up Pinecone index..."))
      by (vm_compute; reflexivity);
    unfold after_print;
    cbn [world trace with_create_index Pinecone_new pc_list_indexes pc_create_index];
    rewrite Hnew; cbn [world trace]; rewrite Hlist; cbn [world trace].
  - rewrite (bool_decide_eq_true_2 _ Hin). cbn [negb].
    rewrite print_encodable by (vm_compute; reflexivity).
    unfold after_print. cbn [world trace]. by rewrite <- app_assoc.
  - rewrite (bool_decide_eq_false_2 _ Hin). cbn [negb world trace].
    destruct (create _ _ _ _ w2) as [[[]|e] w3]; [|reflexivity].
    rewrite print_encodable by (vm_compute; reflexivity).
    unfold after_print. cbn [world trace]. by rewrite <- app_assoc.
Qed.

Lemma index_is_created_only_when_missing_witness :
  (PINECONE_INDEX_NAME ∈ [PINECONE_INDEX_NAME] ->
   forall create,
     setup_pinecone_index environ_full
       (with_create_index (setup_double (Return cafe_two_records)) create)
       setup_st_existing
     = (Return tt,
        {| world := world setup_st_existing;
           trace := trace setup_st_existing
                    ++ [EvPrint (utf8 "📊 Setting up Pinecone index...");
                        EvPrint (utf8 "✅ Index already exists: " ++ PINECONE_INDEX_NAME)] |}))
  /\ (PINECONE_INDEX_NAME ∉ [PINECONE_INDEX_NAME] ->
      forall create,
        setup_pinecone_index environ_full
          (with_create_index (setup_double (Return cafe_two_records)) create)
          setup_st_existing
        = match create PINECONE_INDEX_NAME EMBEDDING_DIMENSION (utf8 "cosine")
                  {| cloud := AWS; region := US_EAST_1 |} (world setup_st_existing) with
          | (Return _, w3) =>
            (Return tt,
             {| world := w3;
                trace := trace setup_st_existing
                         ++ [EvPrint (utf8 "📊 Setting up Pinecone index...");
                             EvPrint (utf8 "✅ Created index: " ++ PINECONE_INDEX_NAME)] |})
          | (Raise e, w3) =>
            (Raise e,
             {| world := w3;
                trace := trace setup_st_existing
                         ++ [EvPrint (utf8 "📊 Setting up Pinecone index...")] |})
          end).
Proof.
  exact (index_is_created_only_when_missing environ_full
           (setup_double (Return cafe_two_records)) setup_st_existing
           (world setup_st_existing) (world setup_st_existing) [PINECONE_INDEX_NAME]
           eq_refl eq_refl).
Defined.

(** ** [verify_setup] and the script *)

(** X15. [verify_setup] imports [app], whose configuration check comes
    first: with a required variable missing or empty it raises the
    [ValueError] of [validate_config] right after its first line of output,
    before any client is built and before any search. *)
Theorem verify_setup_checks_the_configuration {W : Type} (repr_list : list str -> str)
    (environ : gmap str str) (bot : Services W) (st : PyState W) :
  missing_secrets (load_Config environ) <> [] ->
  verify_setup repr_list environ bot st
  = (Raise (mkException ValueError
              (utf8 "Missing environment variables: "
               ++ join (utf8 ", ") (missing_secrets (load_Config environ)))),
     after_print st (utf8 "🔍 Verifying setup...")).
Proof.
  intros Hm. unfold verify_setup, app_import, mbind, M_bind, lift.
  rewrite print_encodable by (vm_compute; reflexivity).
  rewrite validate_config_missing.
  destruct (missing_secrets (load_Config environ)) as [|name rest];
    [by destruct Hm|reflexivity].
Qed.

Lemma verify_setup_checks_the_configuration_witness :
  verify_setup (fun _ => []) environ_two_unset bot_answering st0
  = (Raise (mkException ValueError
              (utf8 "Missing environment variables: "
               ++ join (utf8 ", ") (missing_secrets (load_Config environ_two_unset)))),
     after_print st0 (utf8 "🔍 Verifying setup...")).
Proof.
  apply (verify_setup_checks_the_configuration (fun _ => []) environ_two_unset
           bot_answering st0).
  vm_compute. discriminate.
Defined.


Lemma snoc_three {A} (l : list A) a b c : ((l ++ [a]) ++ [b]) ++ [c] = l ++ [a; b; c].
Proof. by rewrite <- !app_assoc. Qed.

(** The names of the required variables are printable. *)
Lemma missing_secrets_encodable (cls : Config) :
  encodable (join (utf8 ", ") (missing_secrets cls)) = true.
Proof.
  unfold missing_secrets, required_secrets. cbn [List.filter snd].
  destruct (truthy (PINECONE_API_KEY cls)), (truthy (OPENROUTER_API_KEY cls)),
    (truthy (LINE_CHANNEL_ACCESS_TOKEN cls)), (truthy (LINE_CHANNEL_SECRET cls));
    vm_compute; reflexivity.
Qed.

(** The script, by its three steps: the banner, the steps in order until
    one raises, then the [except] clause or the success report. *)
Lemma setup_main_steps {W : Type} (py_str : json -> str)
    (repr_list : list str -> str) (environ : gmap str str)
    (svc : SetupServices W) (bot : Services W) (st : PyState W) :
  setup_main py_str repr_list environ svc bot st
  = match setup_pinecone_index environ svc
            (after_print (after_print st (utf8 "🚀 Coffee Corner RAG Bot Setup"))
               (str_repeat (utf8 "=") 50)) with
    | (Raise e, st1) =>
      (print (nl ++ utf8 "❌ Setup failed: " ++ exc_str e);;
       print (utf8 "💡 Check your .env file and API keys")) st1
    | (Return _, st1) =>
      match import_cafe_data py_str environ svc st1 with
      | (Raise e, st2) =>
        (print (nl ++ utf8 "❌ Setup failed: " ++ exc_str e);;
         print (utf8 "💡 Check your .env file and API keys")) st2
      | (Return count, st2) =>
        match verify_setup repr_list environ bot st2 with
        | (Raise e, st3) =>
          (print (nl ++ utf8 "❌ Setup failed: " ++ exc_str e);;
           print (utf8 "💡 Check your .env file and API keys")) st3
        | (Return _, st3) =>
          (print (nl ++ utf8 "🎉 Setup completed! " ++ str_of_Z count
                  ++ utf8 " documents ready");;
           print (utf8 "📱 Run: python app.py (for LINE bot)");;
           print (utf8 "🧪 Run: python app.py test (for testing)")) st3
        end
      end
    end.
Proof.
  unfold setup_main, try_except, mbind, M_bind.
  rewrite (print_encodable (utf8 "🚀 Coffee Corner RAG Bot Setup"))
    by (vm_compute; reflexivity).
  rewrite (print_encodable (str_repeat (utf8 "=") 50)) by (vm_compute; reflexivity).
  destruct (setup_pinecone_index environ svc _) as [[[]|e] st1]; [|reflexivity].
  destruct (import_cafe_data py_str environ svc st1) as [[count|e] st2]; [|reflexivity].
  destruct (verify_setup repr_list environ bot st2) as [[ok|e] st3]; [|reflexivity].
  rewrite (print_encodable (nl ++ utf8 "🎉 Setup completed! " ++ str_of_Z count
                            ++ utf8 " documents ready"))
    by (rewrite !encodable_app, str_of_Z_encodable; vm_compute; reflexivity).
  cbv beta iota.
  rewrite (print_encodable (utf8 "📱 Run: python app.py (for LINE bot)"))
    by (vm_compute; reflexivity).
  cbv beta iota.
  rewrite (print_encodable (utf8 "🧪 Run: python app.py test (for testing)"))
    by (vm_compute; reflexivity).
  reflexivity.
Qed.




(** X17. The setup script checks the configuration last: with a required
    variable missing or empty, once the index step and the import have
    returned, the script still ends with the failure report, naming the
    missing variables; what the import uploaded stays uploaded. *)
Theorem setup_checks_the_configuration_after_the_upload {W : Type}
    (py_str : json -> str) (repr_list : list str -> str) (environ : gmap str str)
    (svc : SetupServices W) (bot : Services W) (st st1 st2 : PyState W) (count : Z) :
  missing_secrets (load_Config environ) <> [] ->
  setup_pinecone_index environ svc
    (after_print (after_print st (utf8 "🚀 Coffee Corner RAG Bot Setup"))
       (str_repeat (utf8 "=") 50))
  = (Return tt, st1) ->
  import_cafe_data py_str environ svc st1 = (Return count, st2) ->
  setup_main py_str repr_list environ svc bot st
  = (Return tt,
     {| world := world st2;
        trace := trace st2
                 ++ [EvPrint (utf8 "🔍 Verifying setup...");
                     EvPrint (nl ++ utf8 "❌ Setup failed: "
                              ++ utf8 "Missing environment variables: "
                              ++ join (utf8 ", ") (missing_secrets (load_Config environ)));
                     EvPrint (utf8 "💡 Check your .env file and API keys")] |}).
Proof.
  intros Hm Hindex Himport.
  pose proof (missing_secrets_encodable (load_Config environ)) as Hnames.
  rewrite setup_main_steps, Hindex, Himport.
  unfold verify_setup, app_import, mbind, M_bind, lift.
  rewrite print_encodable by (vm_compute; reflexivity).
  rewrite validate_config_missing.
  destruct (missing_secrets (load_Config environ)) as [|name rest]; [done|].
  cbn [exc_str].
  rewrite print_encodable
    by (rewrite !encodable_app, Hnames; vm_compute; reflexivity).
  rewrite print_encodable by (vm_compute; reflexivity).
  unfold after_print. cbn [world trace]. f_equal. f_equal. apply snoc_three.
Qed.

Lemma setup_checks_the_configuration_after_the_upload_witness :
  setup_main py_str_double (fun _ => []) environ_two_unset
    (setup_double (Return cafe_two_records))
    (quiet_stub (Return vec0) (Return {| matches := [] |}) (Raise timeout_error))
    setup_st0
  = (Return tt,
     {| world := {| indexes := [PINECONE_INDEX_NAME];
                    uploaded :=
                      uploaded
                        (world (import_cafe_data py_str_double environ_two_unset
                                  (setup_double (Return cafe_two_records)) setup_st0).2) |};
        trace :=
          trace (import_cafe_data py_str_double environ_two_unset
                   (setup_double (Return cafe_two_records))
                   (setup_pinecone_index environ_two_unset
                      (setup_double (Return cafe_two_records))
                      (after_print
                         (after_print setup_st0 (utf8 "🚀 Coffee Corner RAG Bot Setup"))
                         (str_repeat (utf8 "=") 50))).2).2
          ++ [EvPrint (utf8 "🔍 Verifying setup...");
              EvPrint (nl ++ utf8 "❌ Setup failed: "
                       ++ utf8 "Missing environment variables: "
                       ++ join (utf8 ", ")
                            (missing_secrets (load_Config environ_two_unset)));
              EvPrint (utf8 "💡 Check your .env file and API keys")] |}).
Proof.
  refine (eq_trans
            (setup_checks_the_configuration_after_the_upload py_str_double (fun _ => [])
               environ_two_unset (setup_double (Return cafe_two_records))
               (quiet_stub (Return vec0) (Return {| matches := [] |}) (Raise timeout_error))
               setup_st0
               (setup_pinecone_index environ_two_unset
                  (setup_double (Return cafe_two_records))
                  (after_print
                     (after_print setup_st0 (utf8 "🚀 Coffee Corner RAG Bot Setup"))
                     (str_repeat (utf8 "=") 50))).2
               (import_cafe_data py_str_double environ_two_unset
                  (setup_double (Return cafe_two_records))
                  (setup_pinecone_index environ_two_unset
                     (setup_double (Return cafe_two_records))
                     (after_print
                        (after_print setup_st0 (utf8 "🚀 Coffee Corner RAG Bot Setup"))
                        (str_repeat (utf8 "=") 50))).2).2
               2 _ _ _) _).
  - vm_compute. discriminate.
  - vm_compute. reflexivity.
  - vm_compute. reflexivity.
  - vm_compute. reflexivity.
Defined.

(** ** [test_rag] *)

(** X18. Whatever the services do, [test_rag] fails in one way only: an
    exception that leaves it is the [UnicodeEncodeError] of a [print] (of a
    reply, or of the handler of [process_message]). The key ['reply'] it
    subscripts is in every reply, and the sources are read with a default:
    no [KeyError] can occur. *)
Theorem test_rag_fails_only_by_print {W : Type} (repr_list : list str -> str)
    (cfg : Config) (rag_bot : Services W) (st st' : PyState W) e :
  test_rag repr_list cfg rag_bot st = (Raise e, st') ->
  exc_class e = UnicodeEncodeError.
Proof.
  intros H. by apply test_rag_frame in H as (_ & ?).
Qed.

Lemma test_rag_fails_only_by_print_witness :
  (test_rag (fun _ => []) cfg0 bot_index_unprintable st0).1
  = Raise (mkException UnicodeEncodeError
             (utf8 "'utf-8' codec can't encode character '\udc80' in position 11: surrogates not allowed"))
  /\ exc_class
       (mkException UnicodeEncodeError
          (utf8 "'utf-8' codec can't encode character '\udc80' in position 11: surrogates not allowed"))
     = UnicodeEncodeError.
Proof.
  split; [vm_compute; reflexivity|].
  apply (test_rag_fails_only_by_print (fun _ => []) cfg0 bot_index_unprintable st0
           (test_rag (fun _ => []) cfg0 bot_index_unprintable st0).2).
  vm_compute. reflexivity.
Defined.

(** ** When the pipeline returns *)


(** X20. When retrieval found documents and the completion call raises an
    exception whose text can be encoded (a timeout, a transport error), or
    answers with a status other than 200, [process_message] returns a reply
    whose text is one of the fixed apology texts, and whose sources are the
    titles of the first two retrieved documents, so the list is not
    empty. *)
Theorem generation_failure_gives_fallback_with_sources {W} (cfg : Config)
    (self : Services W) (user_message : str) (st : PyState W)
    documents st1 r w' :
  search_knowledge self user_message 4 st = (Return documents, st1) ->
  documents <> [] ->
  requests_post self (openrouter_request cfg (prompt_of user_message documents))
    (world st1) = (r, w') ->
  match r with
  | Raise e => encodable (exc_str e) = true
  | Return response => status_code response <> 200%Z
  end ->
  exists reply st' t,
    process_message cfg self user_message st = (Return reply, st')
    /\ reply_text reply = Some t
    /\ t = match r with
           | Raise _ => LLM_ERROR_TEXT
           | Return _ => OPENROUTER_ERROR_TEXT
           end
    /\ In t apology_texts
    /\ sources reply = Some (map title (take 2 documents))
    /\ map title (take 2 documents) <> [].
Proof.
  intros Hs Hne Hp Hr.
  destruct kept_answer_fixed as (Hk1 & Hk2).
  pose proof (process_message_cases cfg self user_message st) as H.
  rewrite Hs in H. destruct documents as [|d documents]; [done|].
  pose proof (call_openrouter_cases cfg self (prompt_of user_message (d :: documents)) st1)
    as Hc.
  cbv zeta in Hc. rewrite Hp in Hc.
  assert (Ha : exists st2,
             _call_openrouter cfg self (prompt_of user_message (d :: documents)) st1
             = (Return match r with
                       | Raise _ => LLM_ERROR_TEXT
                       | Return _ => OPENROUTER_ERROR_TEXT
                       end, st2)).
  { destruct r as [response|e].
    - apply Z.eqb_neq in Hr. rewrite Hr in Hc. eexists. exact Hc.
    - rewrite logged_encodable in Hc by (by rewrite encodable_LLM_Error).
      eexists. exact Hc. }
  destruct Ha as (st2 & Ha). rewrite Ha in H.
  eexists _, st2, _. split; [exact H|]. split; [apply answer_reply_text|].
  assert (Ht : kept_answer match r with
                           | Raise _ => LLM_ERROR_TEXT
                           | Return _ => OPENROUTER_ERROR_TEXT
                           end
               = match r with
                 | Raise _ => LLM_ERROR_TEXT
                 | Return _ => OPENROUTER_ERROR_TEXT
                 end).
  { destruct r; [exact Hk2|exact Hk1]. }
  split; [exact Ht|]. split.
  { rewrite Ht. destruct r;
      [exact in_apology_openrouter_error | exact in_apology_llm_error]. }
  split; [apply answer_reply_sources|]. discriminate.
Qed.

Lemma generation_failure_gives_fallback_with_sources_witness :
  exists reply st' t,
    process_message cfg0 bot_llm_timeout latte_query st0 = (Return reply, st')
    /\ reply_text reply = Some t
    /\ t = LLM_ERROR_TEXT
    /\ In t apology_texts
    /\ sources reply = Some (map title (take 2 [latte_document]))
    /\ map title (take 2 [latte_document]) <> [].
Proof.
  exact (generation_failure_gives_fallback_with_sources cfg0 bot_llm_timeout
           latte_query st0 [latte_document] st_retrieved (Raise timeout_error) 3
           bot_llm_timeout_search ltac:(discriminate) eq_refl
           ltac:(vm_compute; reflexivity)).
Defined.
